(** * Booking validation (appointment_booking/models/booking.py)

    A shallow embedding of [Booking.clean], the pre-save validation routine
    of the [Booking] model, together with the library behaviour it relies
    on: [datetime] arithmetic and comparison, [datetime.strptime] for the
    format ["%I:%M%p"], and the three ORM look-ups it performs; and of
    the staff bootstrap command of
    core/management/commands/create_staff.py. *)

From Stdlib Require Import ZArith String Ascii List Bool Lia.
From stdpp Require Import gmap strings.

Local Open Scope string_scope.
Local Open Scope Z_scope.

(** ** Wall-clock values: [datetime.time], [datetime.datetime], [timedelta] *)

Module Datetime.

(** [datetime.time]: a naive time of day.  Python orders naive times by
    the tuple (hour, minute, second, microsecond). *)
Record time : Type :=
  mk_time { hour : Z; minute : Z; second : Z; microsecond : Z }.

Definition time_compare (a b : time) : comparison :=
  match hour a ?= hour b with
  | Eq =>
      match minute a ?= minute b with
      | Eq =>
          match second a ?= second b with
          | Eq => microsecond a ?= microsecond b
          | c => c
          end
      | c => c
      end
  | c => c
  end.

(** [a <= b] on times. *)
Definition time_leb (a b : time) : bool :=
  match time_compare a b with Gt => false | _ => true end.

(** Microseconds since midnight; on times whose fields are in range this
    is the same order as the tuple order (lemma [time_leb_micros]). *)
Definition micros_of_time (t : time) : Z :=
  ((hour t * 60 + minute t) * 60 + second t) * 1000000 + microsecond t.

Definition time_in_range (t : time) : Prop :=
  0 <= hour t < 24 /\ 0 <= minute t < 60 /\
  0 <= second t < 60 /\ 0 <= microsecond t < 1000000.

Definition us_per_second : Z := 1000000.
Definition us_per_day : Z := 86400 * us_per_second.

(** The [tzinfo] object attached to an aware datetime, up to identity:
    [timezone.utc], or a time zone known by its key, such as a [ZoneInfo],
    whose offset changes with daylight saving time. *)
Inductive tz : Type :=
  | UTC
  | Zone (key : string).

#[global] Instance tz_eq_dec : EqDecision tz.
Proof. solve_decision. Defined.

(** [datetime.datetime], aware.  The broken-down calendar fields are
    represented by the number of microseconds the wall-clock reading lies
    after 0001-01-01T00:00:00 (the first instant of day ordinal 1);
    [tzinfo] is the attached time zone and [zone_offset] the UTC offset,
    in microseconds, that a zone other than [UTC] gives this reading (in
    the repeated hour at the end of daylight saving time one wall-clock
    reading has two, told apart by [fold]). *)
Record datetime : Type :=
  mk_datetime { wall : Z; tzinfo : tz; zone_offset : Z }.

(** [d.utcoffset()], in microseconds. *)
Definition utcoffset (d : datetime) : Z :=
  match tzinfo d with UTC => 0 | Zone _ => zone_offset d end.

(** The instant a datetime denotes; the database orders datetimes by
    it. *)
Definition timestamp (d : datetime) : Z := wall d - utcoffset d.

Definition dt_ltb (a b : datetime) : bool := timestamp a <? timestamp b.
Definition dt_geb (a b : datetime) : bool := timestamp b <=? timestamp a.
Definition dt_gtb (a b : datetime) : bool := timestamp b <? timestamp a.

(** [a < b] and [a >= b] as Python evaluates them on two aware datetimes
    ([datetime._cmp]): when both carry the same [tzinfo] object the
    wall-clock readings are compared and the offsets are not looked at;
    otherwise the instants are. *)
Definition datetime_lt (a b : datetime) : bool :=
  if bool_decide (tzinfo a = tzinfo b) then wall a <? wall b
  else timestamp a <? timestamp b.

Definition datetime_ge (a b : datetime) : bool :=
  if bool_decide (tzinfo a = tzinfo b) then wall b <=? wall a
  else timestamp b <=? timestamp a.

(** [d.astimezone(timezone.utc)]: the same instant, read in UTC. *)
Definition astimezone_utc (d : datetime) : datetime :=
  {| wall := timestamp d; tzinfo := UTC; zone_offset := 0 |}.

(** [timedelta(seconds = n)] and [datetime - timedelta], which moves the
    wall-clock reading and keeps the [tzinfo]; [clean] applies it to a
    datetime in UTC. *)
Definition timedelta_seconds (n : Z) : Z := n * us_per_second.
Definition dt_sub (d : datetime) (delta : Z) : datetime :=
  {| wall := wall d - delta; tzinfo := tzinfo d;
     zone_offset := zone_offset d |}.

(** [d.time()]: the wall-clock time of day, time zone dropped. *)
Definition time_of (d : datetime) : time :=
  let us := wall d mod us_per_day in
  {| hour := us / (3600 * us_per_second);
     minute := (us / (60 * us_per_second)) mod 60;
     second := (us / us_per_second) mod 60;
     microsecond := us mod us_per_second |}.

(** [d.toordinal()] and [d.weekday()] (Monday is 0). *)
Definition toordinal (d : datetime) : Z := wall d / us_per_day + 1.
Definition weekday (d : datetime) : Z := (toordinal d + 6) mod 7.

Definition day_names : list string :=
  ["monday"; "tuesday"; "wednesday"; "thursday"; "friday"; "saturday";
   "sunday"].

(** [d.strftime('%A').lower()] in the C / English locale. *)
Definition strftime_A_lower (d : datetime) : string :=
  nth (Z.to_nat (weekday d)) day_names "".

(** Builds the datetime of day ordinal [ord] at [h]:[m]:[s], UTC. *)
Definition at_utc (ord h m s : Z) : datetime :=
  {| wall := (ord - 1) * us_per_day + ((h * 60 + m) * 60 + s) * us_per_second;
     tzinfo := UTC;
     zone_offset := 0 |}.

(** The datetime of day ordinal [ord] at [h]:[m] on the wall clock of the
    zone [key], which is [offset_hours] hours ahead of UTC at that
    reading. *)
Definition at_zone (key : string) (offset_hours : Z) (ord h m : Z)
  : datetime :=
  {| wall := (ord - 1) * us_per_day + (h * 60 + m) * 60 * us_per_second;
     tzinfo := Zone key;
     zone_offset := offset_hours * 3600 * us_per_second |}.

End Datetime.

Import Datetime.

(** ** Exceptions and the validation monad *)

(** [django.core.exceptions.ValidationError], in the two shapes [clean]
    builds: from a dictionary with one field key, or from a bare message
    with a code (which Django files under the non-field errors). *)
Inductive ValidationError : Type :=
  | FieldError (field : string) (message : string)
  | MessageError (message : string) (code : string).

(** Why [strptime] raised [ValueError]. *)
Inductive strptime_failure : Type :=
  | DoesNotMatchFormat
  | UnconvertedDataRemains.

Inductive exn : Type :=
  | EValidationError (e : ValidationError)
  | EValueError (why : strptime_failure).

Inductive result (A : Type) : Type :=
  | Ok (a : A)
  | Raise (e : exn).
Arguments Ok {A} a.
Arguments Raise {A} e.

(** ** [datetime.strptime(s, "%I:%M%p")]

    CPython's [_strptime] turns the format into the regular expression
    [(?P<I>1[0-2]|0[1-9]|[1-9]):(?P<M>[0-5]\d|\d)(?P<p>am|pm)], compiled
    with IGNORECASE, matches it at the start of the data string, and
    raises [ValueError] when there is no match or when the match does not
    reach the end of the string.  The matcher below is that backtracking
    match written in continuation-passing style: each group tries its
    alternatives from left to right and the first one whose continuation
    succeeds wins.  Strings are ASCII and the locale's AM/PM markers are
    the C locale's. *)

Module Strptime.

Definition or_else {A} (x y : option A) : option A :=
  match x with Some _ => x | None => y end.

Definition in_range (lo hi c : ascii) : bool :=
  (N_of_ascii lo <=? N_of_ascii c)%N && (N_of_ascii c <=? N_of_ascii hi)%N.

Definition digit_value (c : ascii) : Z := Z.of_N (N_of_ascii c) - 48.

(** Case-insensitive test against a lower-case letter. *)
Definition is_letter (lower c : ascii) : bool :=
  Ascii.eqb c lower
  || Ascii.eqb c (ascii_of_N (N_of_ascii lower - 32)).

Section Groups.
Context {A : Type}.

(** Group [I]: [1[0-2]|0[1-9]|[1-9]]. *)
Definition group_I (s : string) (k : Z -> string -> option A) : option A :=
  or_else
    (match s with
     | String a (String c r) =>
         if Ascii.eqb a "1" && in_range "0" "2" c
         then k (10 + digit_value c) r else None
     | _ => None
     end)
    (or_else
       (match s with
        | String a (String c r) =>
            if Ascii.eqb a "0" && in_range "1" "9" c
            then k (digit_value c) r else None
        | _ => None
        end)
       (match s with
        | String c r =>
            if in_range "1" "9" c then k (digit_value c) r else None
        | _ => None
        end)).

(** Group [M]: [[0-5]\d|\d]. *)
Definition group_M (s : string) (k : Z -> string -> option A) : option A :=
  or_else
    (match s with
     | String c (String d r) =>
         if in_range "0" "5" c && in_range "0" "9" d
         then k (10 * digit_value c + digit_value d) r else None
     | _ => None
     end)
    (match s with
     | String d r =>
         if in_range "0" "9" d then k (digit_value d) r else None
     | _ => None
     end).

(** Group [p]: [am|pm]; the continuation receives the lower-cased
    text of the group. *)
Definition group_p (s : string) (k : string -> string -> option A)
  : option A :=
  or_else
    (match s with
     | String a (String m r) =>
         if is_letter "a" a && is_letter "m" m then k "am" r else None
     | _ => None
     end)
    (match s with
     | String p (String m r) =>
         if is_letter "p" p && is_letter "m" m then k "pm" r else None
     | _ => None
     end).

Definition literal (ch : ascii) (s : string) (k : string -> option A)
  : option A :=
  match s with
  | String c r => if Ascii.eqb c ch then k r else None
  | _ => None
  end.

End Groups.

(** [format_regex.match(data_string)]: the groups found and the
    unmatched rest of the string. *)
Definition format_regex_match (data_string : string)
  : option (Z * Z * string * string) :=
  group_I data_string (fun found_I s1 =>
  literal ":" s1 (fun s2 =>
  group_M s2 (fun found_M s3 =>
  group_p s3 (fun found_p rest =>
  Some (found_I, found_M, found_p, rest))))).

(** The hour of a 12-hour clock reading, from [_strptime]'s handling of
    the [I] group. *)
Definition hour_of (found_I : Z) (ampm : string) : Z :=
  if String.eqb ampm "" || String.eqb ampm "am" then
    (if found_I =? 12 then 0 else found_I)
  else if String.eqb ampm "pm" then
    (if negb (found_I =? 12) then found_I + 12 else found_I)
  else found_I.

(** [datetime.strptime(data_string, "%I:%M%p").time()]. *)
Definition strptime_time (data_string : string) : result time :=
  match format_regex_match data_string with
  | None => Raise (EValueError DoesNotMatchFormat)
  | Some (found_I, found_M, found_p, rest) =>
      if String.eqb rest "" then
        Ok {| hour := hour_of found_I found_p; minute := found_M;
              second := 0; microsecond := 0 |}
      else Raise (EValueError UnconvertedDataRemains)
  end.

End Strptime.

Import Strptime.

(** ** The validation monad

    [clean] either returns or raises; the monad below is the error monad
    over [exn], paired with the list of checks that were begun.  [mark c]
    has no counterpart in the source beyond the position it stands at: it
    records that control reached check [c]. *)

Inductive check : Type :=
  | TimeRange        (* 1: start_time < end_time *)
  | NotInPast        (* 2: the 20-second window *)
  | NoOverlap        (* 3: no overlapping booking of the service *)
  | StaffAssigned    (* 4: the service has an assigned staff member *)
  | HoursRecord      (* 5: that staff member has a Staff_Times record *)
  | WeekdayEntry     (* 6: the record has an entry for the weekday *)
  | TimeStrings      (* 7: the entry's start and end strings *)
  | WithinHours      (* 8: both clock times inside the day's hours *)
  | PaymentStatus.   (* 9: payment_status is one of the choices *)

#[global] Instance check_eq_dec : EqDecision check.
Proof. solve_decision. Defined.

Definition M (A : Type) : Type := (list check * result A)%type.

Definition trace {A} (m : M A) : list check := fst m.
Definition outcome {A} (m : M A) : result A := snd m.

#[global] Instance M_ret : MRet M := fun A a => ([], Ok a).
#[global] Instance M_bind : MBind M := fun A B f m =>
  match m with
  | (t, Ok a) => let '(t', r) := f a in ((t ++ t')%list, r)
  | (t, Raise e) => (t, Raise e)
  end.

Definition raise {A} (e : exn) : M A := ([], Raise e).
Definition mark (c : check) : M unit := ([c], Ok tt).

(** [if cond: raise e] *)
Definition raise_if (cond : bool) (e : exn) : M unit :=
  if cond then raise e else mret tt.

(** [if not x: raise e], for a reference [x] that is [None] or an object. *)
Definition raise_if_not {A} (x : option A) (e : exn) : M A :=
  match x with Some a => mret a | None => raise e end.

(** A call that may raise. *)
Definition call {A} (r : result A) : M A := ([], r).

(** [raise ValidationError({field: message})] *)
Definition ValidationError_dict (field message : string) : exn :=
  EValidationError (FieldError field message).

(** ** The models [clean] reads *)

(** The enumeration imported from [models.helper.enums], whose definition
    is not part of the sources at hand: its [choices] are (value, label)
    pairs and [get_available_choices()] is a text listing them. *)
Module Order_Status_Choices.
Record t : Type :=
  { choices : list (string * string); get_available_choices : string }.
End Order_Status_Choices.

(** Modelled from the spec: the [Service] model (models/service.py is not
    part of the sources at hand).  The spec says a service "owns an
    assignment to staff"; [clean] reads it as the attribute
    [assigned_staffs] and tests its truth value, so it is a reference to a
    staff user that may be [None].  Users are identified by primary key. *)
Module Service.
Record t : Type := { pk : Z; assigned_staffs : option Z }.
End Service.

(** Modelled from the spec: the [Staff_Times] model (models/staff_times.py
    is not part of the sources at hand).  The spec describes the
    working-hours data as "a mapping from lowercase weekday name to an
    object with "start" and "end" string fields", each of them optional. *)
Module Staff_Times.
Record t : Type :=
  { user : Z; working_hours : gmap string (gmap string string) }.
End Staff_Times.

Module Booking.

(** The [Booking] model: one record per row; [id] is [None] on an
    instance that has not been saved. *)
Record t : Type :=
  { id : option Z;
    start_time : datetime;
    end_time : datetime;
    booked_by : Z;
    service_id : Service.t;
    main_id : Z;
    branch_id : Z;
    is_canceled : bool;
    payment_status : string }.

(** What [clean] reads besides [self]: the clock ([timezone.now()]),
    the tables behind [Booking.objects] and [Staff_Times.objects] (in
    their default order), and the imported enumeration. *)
Record World : Type :=
  { now : datetime;
    objects : list t;
    Staff_Times_objects : list Staff_Times.t;
    Order_Status_Choices : Order_Status_Choices.t }.

(** The row filter of the overlap query:
    [filter(service_id = self.service_id, start_time__lt = self.end_time,
            end_time__gt = self.start_time)]. *)
Definition overlap_filter (self b : t) : bool :=
  (Service.pk (service_id b) =? Service.pk (service_id self))
  && dt_ltb (start_time b) (end_time self)
  && dt_gtb (end_time b) (start_time self).

(** [.exclude(id = self.id)]; for [self.id] [None] the ORM turns the
    test into [id IS NULL]. *)
Definition exclude_id (self : t) (rows : list t) : list t :=
  List.filter (fun b => negb (bool_decide (id b = id self))) rows.

(** [queryset.exists()] *)
Definition exists_ {A} (rows : list A) : bool :=
  match rows with [] => false | _ :: _ => true end.

(** [Staff_Times.objects.filter(user = staff).first()] *)
Definition staff_times_of (w : World) (staff : Z) : option Staff_Times.t :=
  head (List.filter (fun r => Staff_Times.user r =? staff)
          (Staff_Times_objects w)).

(** [value not in dict(Order_Status_Choices.choices)] *)
Definition not_in_choices (w : World) (value : string) : bool :=
  negb (existsb (fun c => String.eqb (fst c) value)
          (Order_Status_Choices.choices (Order_Status_Choices w))).

(** [timezone.now()]: the clock reading as an aware datetime in UTC. *)
Definition timezone_now (w : World) : datetime := astimezone_utc (now w).

(** [Booking.clean] *)
Definition clean (w : World) (self : t) : M unit :=
  mark TimeRange;;
  raise_if (datetime_ge (start_time self) (end_time self))
    (ValidationError_dict "start_time"
       "Start time must be before end time.");;

  mark NotInPast;;
  let future_time := dt_sub (timezone_now w) (timedelta_seconds 20) in
  raise_if (datetime_lt (start_time self) future_time)
    (ValidationError_dict "start_time"
       "Start time must be at least 20 seconds in the future.");;

  mark NoOverlap;;
  let overlapping_bookings :=
    exclude_id self (List.filter (overlap_filter self) (objects w)) in
  raise_if (exists_ overlapping_bookings)
    (ValidationError_dict "start_time"
       "This booking overlaps with an existing booking for the same service.");;

  mark StaffAssigned;;
  assigned_staff ←
    raise_if_not (Service.assigned_staffs (service_id self))
      (ValidationError_dict "service_id"
         "No staff is assigned to this service.");

  mark HoursRecord;;
  staff_times ←
    raise_if_not (staff_times_of w assigned_staff)
      (ValidationError_dict "service_id"
         "Working hours for the assigned staff are not defined.");

  mark WeekdayEntry;;
  let day_of_week := strftime_A_lower (start_time self) in
  day_times ←
    raise_if_not (Staff_Times.working_hours staff_times !! day_of_week)
      (ValidationError_dict "start_time"
         "Working hours for this day are not defined.");

  mark TimeStrings;;
  let start_str := default "" (day_times !! "start") in
  let end_str := default "" (day_times !! "end") in
  raise_if (String.eqb start_str "" || String.eqb end_str "")
    (ValidationError_dict "start_time"
       "Working hours are incomplete for this day.");;
  start_time ← call (strptime_time start_str);
  end_time ← call (strptime_time end_str);

  mark WithinHours;;
  let booking_start_time := time_of (Booking.start_time self) in
  let booking_end_time := time_of (Booking.end_time self) in
  raise_if
    (negb (time_leb start_time booking_start_time
           && time_leb booking_start_time end_time)
     || negb (time_leb start_time booking_end_time
              && time_leb booking_end_time end_time))
    (ValidationError_dict "start_time"
       "Booking times must be within the working hours of the assigned staff.");;

  mark PaymentStatus;;
  raise_if (not_in_choices w (payment_status self))
    (EValidationError
       (MessageError
          ("The status of the booking must be: "
           ++ Order_Status_Choices.get_available_choices
                (Order_Status_Choices w) ++ " .")
          "invalid"));;

  mret tt.

End Booking.

(** ** A sample world

    One service (1) assigned to staff user 7, who works Mondays from
    09:00AM to 05:00PM; the clock reads Sunday 2023-12-31 12:00 UTC. *)

Module Sample.

Definition enum : Order_Status_Choices.t :=
  {| Order_Status_Choices.choices :=
       [("pending", "Pending"); ("paid", "Paid"); ("failed", "Failed")];
     Order_Status_Choices.get_available_choices :=
       "pending, paid, failed" |}.

Definition haircut : Service.t :=
  {| Service.pk := 1; Service.assigned_staffs := Some 7 |}.

Definition day_entry (start_str end_str : string) : gmap string string :=
  <["start" := start_str]> (<["end" := end_str]> ∅).

Definition hours_of_7 : Staff_Times.t :=
  {| Staff_Times.user := 7;
     Staff_Times.working_hours :=
       <["monday" := day_entry "09:00AM" "05:00PM"]> ∅ |}.

Definition world_of (records : list Staff_Times.t) (rows : list Booking.t)
  : Booking.World :=
  {| Booking.now := at_utc 738885 12 0 0;
     Booking.objects := rows;
     Booking.Staff_Times_objects := records;
     Booking.Order_Status_Choices := enum |}.

Definition world (rows : list Booking.t) : Booking.World :=
  world_of [hours_of_7] rows.

(** A booking of [haircut] between two instants. *)
Definition booking (pk : option Z) (from to : datetime) (status : string)
  : Booking.t :=
  {| Booking.id := pk;
     Booking.start_time := from;
     Booking.end_time := to;
     Booking.booked_by := 3;
     Booking.service_id := haircut;
     Booking.main_id := 1;
     Booking.branch_id := 1;
     Booking.is_canceled := false;
     Booking.payment_status := status |}.

(** Monday 2024-01-01, day ordinal 738886. *)
Definition monday (h m : Z) : datetime := at_utc 738886 h m 0.
Definition wednesday (h m : Z) : datetime := at_utc 738888 h m 0.

End Sample.

(** ** The checks as the specification lists them

    Each of the nine requirements is stated on its own, as a total test on
    a world and a candidate booking, with the exception [clean] raises when
    it is the first one to fail.  A requirement that speaks of "that staff
    member" or "that day's entry" fails when there is none. *)

Module Checks.

Definition assigned_staff (self : Booking.t) : option Z :=
  Service.assigned_staffs (Booking.service_id self).

Definition hours_record (w : Booking.World) (self : Booking.t)
  : option Staff_Times.t :=
  staff ← assigned_staff self; Booking.staff_times_of w staff.

Definition day_entry (w : Booking.World) (self : Booking.t)
  : option (gmap string string) :=
  record ← hours_record w self;
  Staff_Times.working_hours record
    !! strftime_A_lower (Booking.start_time self).

Definition start_str (entry : gmap string string) : string :=
  default "" (entry !! "start").
Definition end_str (entry : gmap string string) : string :=
  default "" (entry !! "end").

(** The entry's two strings are present and non-empty. *)
Definition complete (entry : gmap string string) : bool :=
  negb (String.eqb (start_str entry) "" || String.eqb (end_str entry) "").

(** The day's working hours, when both strings are present and parse. *)
Definition parsed_hours (entry : gmap string string) : option (time * time) :=
  if complete entry then
    match strptime_time (start_str entry), strptime_time (end_str entry) with
    | Ok day_start, Ok day_end => Some (day_start, day_end)
    | _, _ => None
    end
  else None.

Definition day_hours (w : Booking.World) (self : Booking.t)
  : option (time * time) :=
  entry ← day_entry w self; parsed_hours entry.

(** [t] lies in the closed interval from [day_start] to [day_end]. *)
Definition within (day_start day_end t : time) : bool :=
  time_leb day_start t && time_leb t day_end.

Definition overlapping (w : Booking.World) (self : Booking.t)
  : list Booking.t :=
  Booking.exclude_id self
    (List.filter (Booking.overlap_filter self) (Booking.objects w)).

Definition is_some {A} (x : option A) : bool :=
  match x with Some _ => true | None => false end.

(** Does the booking meet requirement [c]? *)
Definition requirement (c : check) (w : Booking.World) (self : Booking.t)
  : bool :=
  match c with
  | TimeRange =>
      datetime_lt (Booking.start_time self) (Booking.end_time self)
  | NotInPast =>
      dt_geb (Booking.start_time self)
        (dt_sub (Booking.now w) (timedelta_seconds 20))
  | NoOverlap => negb (Booking.exists_ (overlapping w self))
  | StaffAssigned => is_some (assigned_staff self)
  | HoursRecord => is_some (hours_record w self)
  | WeekdayEntry => is_some (day_entry w self)
  | TimeStrings => is_some (day_hours w self)
  | WithinHours =>
      match day_hours w self with
      | Some (day_start, day_end) =>
          within day_start day_end (time_of (Booking.start_time self))
          && within day_start day_end (time_of (Booking.end_time self))
      | None => false
      end
  | PaymentStatus =>
      negb (Booking.not_in_choices w (Booking.payment_status self))
  end.

(** What the string check raises on an entry that fails it. *)
Definition strings_error (entry : gmap string string) : exn :=
  if complete entry then
    match strptime_time (start_str entry), strptime_time (end_str entry) with
    | Raise e, _ => e
    | Ok _, Raise e => e
    | Ok _, Ok _ => EValueError DoesNotMatchFormat
    end
  else ValidationError_dict "start_time"
         "Working hours are incomplete for this day.".

(** The exception of check [c]. *)
Definition error_of (c : check) (w : Booking.World) (self : Booking.t)
  : exn :=
  match c with
  | TimeRange =>
      ValidationError_dict "start_time" "Start time must be before end time."
  | NotInPast =>
      ValidationError_dict "start_time"
        "Start time must be at least 20 seconds in the future."
  | NoOverlap =>
      ValidationError_dict "start_time"
        "This booking overlaps with an existing booking for the same service."
  | StaffAssigned =>
      ValidationError_dict "service_id" "No staff is assigned to this service."
  | HoursRecord =>
      ValidationError_dict "service_id"
        "Working hours for the assigned staff are not defined."
  | WeekdayEntry =>
      ValidationError_dict "start_time"
        "Working hours for this day are not defined."
  | TimeStrings =>
      strings_error (default ∅ (day_entry w self))
  | WithinHours =>
      ValidationError_dict "start_time"
        "Booking times must be within the working hours of the assigned staff."
  | PaymentStatus =>
      EValidationError
        (MessageError
           ("The status of the booking must be: "
            ++ Order_Status_Choices.get_available_choices
                 (Booking.Order_Status_Choices w) ++ " .")
           "invalid")
  end.

(** The order the specification lists the checks in. *)
Definition in_order : list check :=
  [TimeRange; NotInPast; NoOverlap; StaffAssigned; HoursRecord;
   WeekdayEntry; TimeStrings; WithinHours; PaymentStatus].

(** Runs the checks of [cs] one after the other and stops at the first
    requirement that is not met. *)
Section FirstFailure.
Variable req : check -> bool.
Variable err : check -> exn.

Fixpoint first_failure (cs : list check) : M unit :=
  match cs with
  | [] => ([], Ok tt)
  | c :: cs' =>
      if req c then
        let '(t, r) := first_failure cs' in (c :: t, r)
      else ([c], Raise (err c))
  end.
End FirstFailure.

Definition run (w : Booking.World) (self : Booking.t) (cs : list check)
  : M unit :=
  first_failure (fun c => requirement c w self)
    (fun c => error_of c w self) cs.

(** The checks listed before [c] in [cs]. *)
Fixpoint before (c : check) (cs : list check) : list check :=
  match cs with
  | [] => []
  | c' :: cs' => if bool_decide (c' = c) then [] else c' :: before c cs'
  end.

End Checks.

(** ** Vocabulary for the statements about [clean] *)

(** Control reaches check [c] when [clean] runs on [self] in world [w]. *)
Definition reached (c : check) (w : Booking.World) (self : Booking.t) : Prop :=
  In c (trace (Booking.clean w self)).

(** [clean] raises [e]. *)
Definition raises (w : Booking.World) (self : Booking.t) (e : exn) : Prop :=
  outcome (Booking.clean w self) = Raise e.

(** [clean] returns normally. *)
Definition accepts (w : Booking.World) (self : Booking.t) : Prop :=
  outcome (Booking.clean w self) = Ok tt.

(** All requirements listed before [c] are met. *)
Definition met_before (c : check) (w : Booking.World) (self : Booking.t)
  : Prop :=
  Forall (fun c' => Checks.requirement c' w self = true)
    (Checks.before c Checks.in_order).

(** The instant twenty seconds before the clock reading of [w]. *)
Definition window_start (w : Booking.World) : Z :=
  timestamp (Booking.now w) - 20 * 1000000.

(** An existing row [e] stands in the way of [self]: it books the same
    service, is not the record itself, and
    [e.start_time < self.end_time] and [e.end_time > self.start_time]. *)
Definition conflicts (self e : Booking.t) : Prop :=
  Service.pk (Booking.service_id e) = Service.pk (Booking.service_id self)
  /\ Booking.id e <> Booking.id self
  /\ timestamp (Booking.start_time e) < timestamp (Booking.end_time self)
  /\ timestamp (Booking.end_time e) > timestamp (Booking.start_time self).

(** The row [b] with its cancellation flag set to [v]. *)
Definition set_is_canceled (v : bool) (b : Booking.t) : Booking.t :=
  {| Booking.id := Booking.id b;
     Booking.start_time := Booking.start_time b;
     Booking.end_time := Booking.end_time b;
     Booking.booked_by := Booking.booked_by b;
     Booking.service_id := Booking.service_id b;
     Booking.main_id := Booking.main_id b;
     Booking.branch_id := Booking.branch_id b;
     Booking.is_canceled := v;
     Booking.payment_status := Booking.payment_status b |}.

(** The world [w] with [rows] as the contents of the bookings table. *)
Definition with_objects (rows : list Booking.t) (w : Booking.World)
  : Booking.World :=
  {| Booking.now := Booking.now w;
     Booking.objects := rows;
     Booking.Staff_Times_objects := Booking.Staff_Times_objects w;
     Booking.Order_Status_Choices := Booking.Order_Status_Choices w |}.

(** The working hours [clean] compares the booking with: the assigned
    staff member's record, its entry for the weekday of [start_time], and
    the two strings of that entry, parsed. *)
Definition day_hours_are (w : Booking.World) (self : Booking.t)
           (day_start day_end : time) : Prop :=
  exists staff record entry,
    Service.assigned_staffs (Booking.service_id self) = Some staff
    /\ Booking.staff_times_of w staff = Some record
    /\ Staff_Times.working_hours record
         !! strftime_A_lower (Booking.start_time self) = Some entry
    /\ strptime_time (default "" (entry !! "start")) = Ok day_start
    /\ strptime_time (default "" (entry !! "end")) = Ok day_end.

(** ** The database constraints of [Booking.Meta] *)

Module Constraints.

(** [CheckConstraint(check = Q(start_time__lt = F("end_time")))] *)
Definition start_time_before_end_time (b : Booking.t) : bool :=
  dt_ltb (Booking.start_time b) (Booking.end_time b).

(** [[choice.value for choice in Order_Status_Choices]]: the values of
    the enumeration, which are the first components of its [choices]. *)
Definition values (enum : Order_Status_Choices.t) : list string :=
  map fst (Order_Status_Choices.choices enum).

(** [CheckConstraint(check = Q(payment_status__in = values))] *)
Definition valid_payment_status_booking (enum : Order_Status_Choices.t)
           (b : Booking.t) : bool :=
  existsb (String.eqb (Booking.payment_status b)) (values enum).

End Constraints.

(** ** Vocabulary for tables and worlds *)

(** The entry [clean] reads for the weekday of [start_time]: that of the
    first working-hours record of the staff member assigned to the
    service. *)
Definition day_entry_is (w : Booking.World) (self : Booking.t)
           (entry : gmap string string) : Prop :=
  exists staff record,
    Service.assigned_staffs (Booking.service_id self) = Some staff
    /\ Booking.staff_times_of w staff = Some record
    /\ Staff_Times.working_hours record
         !! strftime_A_lower (Booking.start_time self) = Some entry.

(** The intervals of [a] and [b] share an instant. *)
Definition intervals_overlap (a b : Booking.t) : Prop :=
  timestamp (Booking.start_time a) < timestamp (Booking.end_time b)
  /\ timestamp (Booking.start_time b) < timestamp (Booking.end_time a).

(** No two rows with different ids book overlapping intervals of the same
    service. *)
Definition no_double_booking (rows : list Booking.t) : Prop :=
  forall a b, In a rows -> In b rows ->
    Booking.id a <> Booking.id b ->
    Service.pk (Booking.service_id a) = Service.pk (Booking.service_id b) ->
    ~ intervals_overlap a b.

(** The row [b] as stored under the primary key [pk]. *)
Definition with_id (pk : option Z) (b : Booking.t) : Booking.t :=
  {| Booking.id := pk;
     Booking.start_time := Booking.start_time b;
     Booking.end_time := Booking.end_time b;
     Booking.booked_by := Booking.booked_by b;
     Booking.service_id := Booking.service_id b;
     Booking.main_id := Booking.main_id b;
     Booking.branch_id := Booking.branch_id b;
     Booking.is_canceled := Booking.is_canceled b;
     Booking.payment_status := Booking.payment_status b |}.

(** The world [w] with the clock reading [t]. *)
Definition with_now (t : datetime) (w : Booking.World) : Booking.World :=
  {| Booking.now := t;
     Booking.objects := Booking.objects w;
     Booking.Staff_Times_objects := Booking.Staff_Times_objects w;
     Booking.Order_Status_Choices := Booking.Order_Status_Choices w |}.

(** The world [w] with [records] as the working-hours table. *)
Definition with_Staff_Times_objects (records : list Staff_Times.t)
           (w : Booking.World) : Booking.World :=
  {| Booking.now := Booking.now w;
     Booking.objects := Booking.objects w;
     Booking.Staff_Times_objects := records;
     Booking.Order_Status_Choices := Booking.Order_Status_Choices w |}.

(** 23:59:00, the latest time the format ["%I:%M%p"] can express, in
    microseconds since midnight. *)
Definition latest_parsable : Z := (23 * 60 + 59) * 60 * 1000000.

(** ** The staff bootstrap command (core/management/commands/create_staff.py) *)

(** What the command takes from [django.contrib.auth] as the project
    configures it: the user model behind [get_user_model()], of which the
    command reads [username], [is_staff] and [is_superuser] and writes
    [is_active]; the manager's [create_user], which returns the row it
    has inserted or raises ([None]); and [validate_password], which
    returns or raises with a text ([Some text]). *)
Record Auth : Type :=
  { User : Type;
    username : User -> string;
    is_staff : User -> bool;
    is_superuser : User -> bool;
    set_is_active : bool -> User -> User;
    create_user :
      forall (email password : string) (is_staff : bool) (username : string),
        option User;
    validate_password : string -> option string }.

Module Command.

Inductive style : Type := ERROR | SUCCESS.

(** What appears on standard output: the prompt of an [input] call or a
    line written through [self.stdout] in a style. *)
Inductive output : Type :=
  | Prompt (text : string)
  | Styled (s : style) (text : string).

Inductive exception : Type :=
  | EOFError          (* [input] at the end of standard input *)
  | ManagerError.     (* [create_user] raised *)

Inductive ended : Type :=
  | Returned
  | Raised (e : exception).

Section WithAuth.
Context (auth : Auth).

(** [User.objects.filter(username = name).exists()] *)
Definition username_exists (users : list (User auth)) (name : string) : bool :=
  existsb (fun u => String.eqb (username auth u) name) users.

(** [User.objects.filter(is_staff = True, is_superuser = False)], as a
    truth value. *)
Definition staff_exists (users : list (User auth)) : bool :=
  existsb (fun u => is_staff auth u && negb (is_superuser auth u)) users.

Definition prompts : list output :=
  [Prompt "Enter staff email: "; Prompt "Enter staff username: ";
   Prompt "Enter staff password: "].

(** The [while True] loop of [create_initial_staff] on the lines that
    standard input holds: the triple it leaves the loop with ([None] when
    an [input] call meets the end of input), the lines left unread, and
    what was written. *)
Fixpoint loop (users : list (User auth)) (lines : list string)
  : option (string * string * string) * list string * list output :=
  match lines with
  | [] => (None, [], firstn 1 prompts)
  | email :: lines1 =>
      match lines1 with
      | [] => (None, [], firstn 2 prompts)
      | username :: lines2 =>
          match lines2 with
          | [] => (None, [], prompts)
          | password :: rest =>
              if username_exists users username then
                let '(found, unread, written) := loop users rest in
                (found, unread,
                 (prompts
                  ++ Styled ERROR
                       "User with this username already exists. Try a different username."
                  :: written)%list)
              else
                match validate_password auth password with
                | None => (Some (email, username, password), rest, prompts)
                | Some e =>
                    let '(found, unread, written) := loop users rest in
                    (found, unread,
                     (prompts
                      ++ Styled ERROR ("Invalid password: " ++ e)
                      :: written)%list)
                end
          end
      end
  end.

(** [Command.create_initial_staff]: the table of users afterwards, the
    lines left unread, what was written, and how the call ended. *)
Definition create_initial_staff (users : list (User auth))
           (lines : list string)
  : list (User auth) * list string * list output * ended :=
  match loop users lines with
  | (None, unread, written) => (users, unread, written, Raised EOFError)
  | (Some (email, username, password), unread, written) =>
      match create_user auth email password true username with
      | None => (users, unread, written, Raised ManagerError)
      | Some admin_user =>
          ((users ++ [set_is_active auth true admin_user])%list,
           unread, written, Returned)
      end
  end.

(** [Command.handle] *)
Definition handle (users : list (User auth)) (lines : list string)
  : list (User auth) * list string * list output * ended :=
  if staff_exists users then
    (users, lines,
     [Styled ERROR "staff User already exist. No action required."],
     Returned)
  else
    match create_initial_staff users lines with
    | (users', unread, written, Returned) =>
        (users', unread,
         (written ++ [Styled SUCCESS "Successfully created staff User"])%list,
         Returned)
    | (users', unread, written, Raised e) =>
        (users', unread, written, Raised e)
    end.

(** What one round of the loop writes after its prompts when it rejects
    the triple, [None] when it accepts it. *)
Definition rejection (users : list (User auth))
           (round : string * string * string) : option output :=
  let '(_, username, password) := round in
  if username_exists users username then
    Some (Styled ERROR
            "User with this username already exists. Try a different username.")
  else
    match validate_password auth password with
    | None => None
    | Some e => Some (Styled ERROR ("Invalid password: " ++ e))
    end.

(** Everything one round writes. *)
Definition round_output (users : list (User auth))
           (round : string * string * string) : list output :=
  (prompts
   ++ match rejection users round with Some line => [line] | None => [] end)
  %list.

End WithAuth.

(** The lines of a sequence of rounds, as typed. *)
Definition lines_of (rounds : list (string * string * string)) : list string :=
  flat_map (fun '(email, username, password) => [email; username; password])
    rounds.

End Command.

(** A user model for examples: rows with the six fields the command
    names, a manager that refuses the empty username and creates users
    that are not superusers, and passwords of at least eight characters. *)
Module SampleAuth.

Record row : Type :=
  { row_username : string;
    row_email : string;
    row_password : string;
    row_is_staff : bool;
    row_is_superuser : bool;
    row_is_active : bool }.

Definition auth : Auth :=
  {| User := row;
     username := row_username;
     is_staff := row_is_staff;
     is_superuser := row_is_superuser;
     set_is_active := fun v u =>
       {| row_username := row_username u;
          row_email := row_email u;
          row_password := row_password u;
          row_is_staff := row_is_staff u;
          row_is_superuser := row_is_superuser u;
          row_is_active := v |};
     create_user := fun email password staff name =>
       if String.eqb name "" then None
       else Some {| row_username := name;
                    row_email := email;
                    row_password := password;
                    row_is_staff := staff;
                    row_is_superuser := false;
                    row_is_active := false |};
     validate_password := fun password =>
       if (String.length password <? 8)%nat
       then Some "['This password is too short.']" else None |}.

Definition root : row :=
  {| row_username := "root";
     row_email := "root@example.org";
     row_password := "correct horse";
     row_is_staff := true;
     row_is_superuser := true;
     row_is_active := true |}.

End SampleAuth.

(** * Properties *)

(** ** The library model on a few inputs *)

Example strptime_0900AM :
  strptime_time "09:00AM" = Ok (mk_time 9 0 0 0).
Proof. reflexivity. Qed.

Example strptime_0500PM :
  strptime_time "05:00PM" = Ok (mk_time 17 0 0 0).
Proof. reflexivity. Qed.

Example strptime_1200am_lower :
  strptime_time "12:00am" = Ok (mk_time 0 0 0 0).
Proof. reflexivity. Qed.

Example strptime_short_fields :
  strptime_time "9:5pM" = Ok (mk_time 21 5 0 0).
Proof. reflexivity. Qed.

Example strptime_24h_rejected :
  strptime_time "17:00" = Raise (EValueError DoesNotMatchFormat).
Proof. reflexivity. Qed.

Example strptime_trailing_rejected :
  strptime_time "09:00AM " = Raise (EValueError UnconvertedDataRemains).
Proof. reflexivity. Qed.

Example monday_2024_01_01 :
  strftime_A_lower (at_utc 738886 10 0 0) = "monday"
  /\ time_of (at_utc 738886 10 30 0) = mk_time 10 30 0 0.
Proof. split; reflexivity. Qed.

(** ** [clean] runs the nine checks in order *)

Lemma dt_geb_ltb (a b : datetime) : dt_geb a b = negb (dt_ltb a b).
Proof. unfold dt_geb, dt_ltb. lia. Qed.

Lemma datetime_ge_lt (a b : datetime) :
  datetime_ge a b = negb (datetime_lt a b).
Proof.
  unfold datetime_ge, datetime_lt.
  destruct (bool_decide (tzinfo a = tzinfo b)); lia.
Qed.

(** Where the two datetimes carry different [tzinfo] objects, or the same
    offset, Python's order is the order of the instants. *)
Lemma datetime_lt_instants (a b : datetime) :
  tzinfo a <> tzinfo b \/ utcoffset a = utcoffset b ->
  datetime_lt a b = dt_ltb a b.
Proof.
  unfold datetime_lt, dt_ltb, timestamp.
  case_bool_decide as Hsame; intros [Hne|Heq];
    try reflexivity; try contradiction.
  rewrite Heq. lia.
Qed.

(** Against a datetime in UTC, such as [timezone.now()] less a
    [timedelta], Python's order is the order of the instants. *)
Lemma datetime_lt_utc (a b : datetime) :
  tzinfo b = UTC -> datetime_lt a b = dt_ltb a b.
Proof.
  intros Hb. apply datetime_lt_instants.
  destruct (decide (tzinfo a = tzinfo b)) as [Hsame|Hne]; [right | now left].
  unfold utcoffset. now rewrite Hsame, Hb.
Qed.

Lemma timestamp_astimezone_utc (d : datetime) :
  timestamp (astimezone_utc d) = timestamp d.
Proof. unfold timestamp at 1. cbn. lia. Qed.

Lemma future_time_instants (w : Booking.World) (d : datetime) (delta : Z) :
  datetime_lt d (dt_sub (Booking.timezone_now w) delta)
  = dt_ltb d (dt_sub (Booking.now w) delta).
Proof.
  rewrite datetime_lt_utc by reflexivity.
  unfold dt_ltb. f_equal.
  unfold Booking.timezone_now, astimezone_utc, dt_sub.
  unfold timestamp, utcoffset. cbn.
  destruct (tzinfo (Booking.now w)); lia.
Qed.

Lemma clean_run (w : Booking.World) (self : Booking.t) :
  Booking.clean w self = Checks.run w self Checks.in_order.
Proof.
  unfold Booking.clean, Checks.in_order, Checks.run, Checks.first_failure,
    Checks.requirement,
    Checks.error_of, Checks.day_hours, Checks.day_entry, Checks.hours_record,
    Checks.assigned_staff, Checks.overlapping.
  rewrite (datetime_ge_lt (Booking.start_time self) (Booking.end_time self)).
  destruct (datetime_lt (Booking.start_time self) (Booking.end_time self));
    [|reflexivity].
  rewrite future_time_instants.
  rewrite (dt_geb_ltb (Booking.start_time self)).
  destruct (dt_ltb (Booking.start_time self) _); [reflexivity|].
  destruct (Booking.exists_ _); [reflexivity|].
  destruct (Service.assigned_staffs _) as [staff|]; [|reflexivity].
  cbn. destruct (Booking.staff_times_of w staff) as [record|]; [|reflexivity].
  cbn. destruct (Staff_Times.working_hours record !! _) as [entry|];
    [|reflexivity].
  cbn. unfold Checks.parsed_hours, Checks.strings_error, Checks.complete.
  change (default "" (entry !! "start")) with (Checks.start_str entry).
  change (default "" (entry !! "end")) with (Checks.end_str entry).
  destruct (String.eqb (Checks.start_str entry) "" || _); [reflexivity|].
  cbn. destruct (strptime_time (Checks.start_str entry)) as [day_start|e];
    [|reflexivity].
  cbn. destruct (strptime_time (Checks.end_str entry)) as [day_end|e];
    [|reflexivity].
  cbn. unfold Checks.within.
  destruct (time_leb day_start _ && time_leb _ day_end);
    destruct (time_leb day_start _ && time_leb _ day_end);
    try reflexivity.
  cbn. destruct (Booking.not_in_choices w _); reflexivity.
Qed.

(** ** Facts about running a list of checks *)

Section FirstFailureFacts.
Variable req : check -> bool.
Variable err : check -> exn.

Let met (c : check) : Prop := req c = true.
Let ff := Checks.first_failure req err.

Lemma first_failure_passes (cs : list check) :
  Forall met cs -> ff cs = (cs, Ok tt).
Proof.
  induction 1 as [|c cs Hc _ IH]; [reflexivity|].
  unfold ff in *; cbn. rewrite Hc, IH. reflexivity.
Qed.

Lemma first_failure_stops (front : list check) (c : check)
      (back : list check) :
  Forall met front -> req c = false ->
  ff (front ++ c :: back) = ((front ++ [c])%list, Raise (err c)).
Proof.
  intros Hfront Hc.
  induction Hfront as [|c' front Hc' _ IH]; unfold ff in *; cbn.
  - rewrite Hc. reflexivity.
  - rewrite Hc', IH. reflexivity.
Qed.

Lemma reached_first_failure (c : check) (cs : list check) :
  In c (trace (ff cs)) <-> In c cs /\ Forall met (Checks.before c cs).
Proof.
  induction cs as [|a cs IH]; cbn.
  - tauto.
  - unfold ff in *; cbn.
    destruct (req a) eqn:Ha.
    + destruct (Checks.first_failure req err cs) as [t r] eqn:Hrun.
      cbn in *. case_bool_decide as Hac.
      * split; [intros _; split; [now left | constructor] | now left].
      * rewrite List.Forall_cons_iff. unfold met at 1. tauto.
    + cbn. case_bool_decide as Hac.
      * split; [intros _; split; [now left | constructor] | now left].
      * rewrite List.Forall_cons_iff. unfold met at 1.
        split; [intros [?|[]]; contradiction | intros [_ [? _]]; congruence].
Qed.

Lemma first_failure_ok (cs : list check) :
  outcome (ff cs) = Ok tt <-> Forall met cs.
Proof.
  split.
  - induction cs as [|a cs IH]; [constructor|].
    unfold ff in *; cbn. destruct (req a) eqn:Ha; [|discriminate].
    destruct (Checks.first_failure req err cs) as [t r]. cbn in *.
    intros ->. constructor; [exact Ha | now apply IH].
  - intros H. now rewrite (first_failure_passes cs H).
Qed.

Lemma first_failure_raises (cs : list check) (e : exn) :
  outcome (ff cs) = Raise e <->
  exists c, In c cs /\ Forall met (Checks.before c cs)
            /\ req c = false /\ err c = e.
Proof.
  induction cs as [|a cs IH]; cbn.
  - split; [discriminate | intros (c & [] & _)].
  - unfold ff in *; cbn. destruct (req a) eqn:Ha.
    + destruct (Checks.first_failure req err cs) as [t r]. cbn in *.
      rewrite IH. split.
      * intros (c & Hin & Hbef & Hc & He). exists c.
        split; [now right|]. split; [|now split].
        case_bool_decide; constructor; assumption.
      * intros (c & Hin & Hbef & Hc & He). exists c.
        case_bool_decide as Hac; [congruence|].
        apply List.Forall_cons_iff in Hbef as [_ Hbef].
        destruct Hin as [->|Hin]; [contradiction|]. now repeat split.
    + cbn. split.
      * intros [= <-]. exists a. split; [now left|].
        rewrite bool_decide_eq_true_2 by reflexivity.
        repeat split; [constructor | assumption].
      * intros (c & Hin & Hbef & Hc & He).
        case_bool_decide as Hac; [now subst|].
        apply List.Forall_cons_iff in Hbef as [Ha' _].
        unfold met in Ha'. congruence.
Qed.

End FirstFailureFacts.

Lemma reached_iff (c : check) (w : Booking.World) (self : Booking.t) :
  reached c w self <-> met_before c w self.
Proof.
  unfold reached, met_before. rewrite clean_run. unfold Checks.run.
  rewrite reached_first_failure.
  split; [tauto | intros H; split; [|exact H]].
  destruct c; cbn; tauto.
Qed.

Lemma raises_iff (w : Booking.World) (self : Booking.t) (e : exn) :
  raises w self e <->
  exists c, met_before c w self
            /\ Checks.requirement c w self = false
            /\ Checks.error_of c w self = e.
Proof.
  unfold raises, met_before. rewrite clean_run. unfold Checks.run.
  rewrite first_failure_raises. split.
  - intros (c & _ & H). now exists c.
  - intros (c & H). exists c. split; [|exact H].
    destruct c; cbn; tauto.
Qed.

Lemma accepts_iff (w : Booking.World) (self : Booking.t) :
  accepts w self <->
  Forall (fun c => Checks.requirement c w self = true) Checks.in_order.
Proof.
  unfold accepts. rewrite clean_run. unfold Checks.run.
  apply first_failure_ok.
Qed.

(** [strptime] raises nothing but [ValueError]. *)
Lemma strptime_time_raises (data_string : string) (e : exn) :
  strptime_time data_string = Raise e -> exists why, e = EValueError why.
Proof.
  unfold strptime_time.
  destruct (format_regex_match data_string) as [[[[? ?] ?] rest]|].
  - destruct (String.eqb rest ""); [discriminate|].
    intros [= <-]. now eexists.
  - intros [= <-]. now eexists.
Qed.

Lemma strings_error_shape (entry : gmap string string) :
  Checks.strings_error entry
  = ValidationError_dict "start_time"
      "Working hours are incomplete for this day."
  \/ exists why, Checks.strings_error entry = EValueError why.
Proof.
  unfold Checks.strings_error.
  destruct (Checks.complete entry); [right | now left].
  destruct (strptime_time (Checks.start_str entry)) as [?|e] eqn:Hs.
  - destruct (strptime_time (Checks.end_str entry)) as [?|e] eqn:He.
    + now eexists.
    + destruct (strptime_time_raises _ _ He) as [why ->]. now eexists.
  - destruct (strptime_time_raises _ _ Hs) as [why ->]. now eexists.
Qed.

(** Every check raises an exception of its own. *)
Lemma error_of_inj (w : Booking.World) (self : Booking.t) (c c' : check) :
  Checks.error_of c w self = Checks.error_of c' w self -> c = c'.
Proof.
  destruct c, c'; try reflexivity; intros H; exfalso;
    cbn -[Checks.strings_error] in H; unfold ValidationError_dict in H;
    try discriminate H;
    match type of H with
    | context [Checks.strings_error ?entry] =>
        destruct (strings_error_shape entry) as [Hs|[why Hs]];
        rewrite Hs in H; discriminate H
    end.
Qed.

(** [clean] raises the exception of check [c] exactly when [c] is the
    first requirement that is not met. *)
Lemma raises_error_of (c : check) (w : Booking.World) (self : Booking.t) :
  raises w self (Checks.error_of c w self) <->
  met_before c w self /\ Checks.requirement c w self = false.
Proof.
  rewrite raises_iff. split.
  - intros (c' & Hbefore & Hc' & Herr).
    apply error_of_inj in Herr. subst c'. now split.
  - intros [Hbefore Hc]. exists c. now repeat split.
Qed.

(** ** The requirements in terms of the data *)

Lemma timestamp_dt_sub (d : datetime) (delta : Z) :
  timestamp (dt_sub d delta) = timestamp d - delta.
Proof.
  unfold timestamp, dt_sub, utcoffset. cbn. destruct (tzinfo d); lia.
Qed.

Lemma requirement_TimeRange (w : Booking.World) (self : Booking.t) :
  Checks.requirement TimeRange w self = true <->
  datetime_lt (Booking.start_time self) (Booking.end_time self) = true.
Proof. reflexivity. Qed.

Lemma requirement_NotInPast (w : Booking.World) (self : Booking.t) :
  Checks.requirement NotInPast w self = true <->
  window_start w <= timestamp (Booking.start_time self).
Proof.
  cbn. unfold dt_geb, window_start. rewrite timestamp_dt_sub.
  unfold timedelta_seconds, us_per_second. lia.
Qed.

Lemma In_overlapping (w : Booking.World) (self e : Booking.t) :
  In e (Checks.overlapping w self) <->
  In e (Booking.objects w) /\ conflicts self e.
Proof.
  unfold Checks.overlapping, Booking.exclude_id, conflicts.
  rewrite !List.filter_In. unfold Booking.overlap_filter, dt_ltb, dt_gtb.
  rewrite negb_true_iff, bool_decide_eq_false, !andb_true_iff.
  rewrite Z.eqb_eq, !Z.ltb_lt. intuition lia.
Qed.

Lemma exists_true {A} (rows : list A) :
  Booking.exists_ rows = true <-> exists x, In x rows.
Proof.
  destruct rows as [|x rows]; cbn.
  - split; [discriminate | intros [? []]].
  - split; [intros _; exists x; now left | reflexivity].
Qed.

Lemma requirement_NoOverlap_false (w : Booking.World) (self : Booking.t) :
  Checks.requirement NoOverlap w self = false <->
  exists e, In e (Booking.objects w) /\ conflicts self e.
Proof.
  cbn. rewrite negb_false_iff, exists_true.
  split; intros [e He]; exists e; now apply In_overlapping.
Qed.

Lemma requirement_NoOverlap (w : Booking.World) (self : Booking.t) :
  Checks.requirement NoOverlap w self = true <->
  forall e, In e (Booking.objects w) -> ~ conflicts self e.
Proof.
  rewrite <- not_false_iff_true, requirement_NoOverlap_false.
  split.
  - intros H e Hin Hc. apply H. now exists e.
  - intros H (e & Hin & Hc). now apply (H e).
Qed.

Lemma staff_times_of_None (w : Booking.World) (staff : Z) :
  Booking.staff_times_of w staff = None <->
  forall r, In r (Booking.Staff_Times_objects w) -> Staff_Times.user r <> staff.
Proof.
  unfold Booking.staff_times_of.
  induction (Booking.Staff_Times_objects w) as [|r rows IH]; cbn.
  - split; [intros _ ? [] | reflexivity].
  - destruct (Staff_Times.user r =? staff) eqn:Hr; cbn.
    + apply Z.eqb_eq in Hr. split; [discriminate|].
      intros H. exfalso. apply (H r); [now left | exact Hr].
    + apply Z.eqb_neq in Hr. rewrite IH. split.
      * intros H r' [<-|Hin]; [exact Hr | now apply H].
      * intros H r' Hin. apply H. now right.
Qed.

(** Unfolds [met_before c] into the conjunction of the requirements
    listed before [c]. *)
Ltac unfold_met_before :=
  unfold met_before in *;
  repeat match goal with
         | |- context [Checks.before ?c Checks.in_order] =>
             let l := eval vm_compute in (Checks.before c Checks.in_order) in
             change (Checks.before c Checks.in_order) with l
         | H : context [Checks.before ?c Checks.in_order] |- _ =>
             let l := eval vm_compute in (Checks.before c Checks.in_order) in
             change (Checks.before c Checks.in_order) with l in H
         end;
  rewrite ?List.Forall_cons_iff, ?List.Forall_nil_iff in *; cbn beta in *.

(** What [met_before] says, check by check. *)
Lemma met_before_NotInPast w self :
  met_before NotInPast w self <-> Checks.requirement TimeRange w self = true.
Proof.
  unfold_met_before. tauto.
Qed.

Lemma met_before_NoOverlap w self :
  met_before NoOverlap w self <->
  Checks.requirement TimeRange w self = true
  /\ Checks.requirement NotInPast w self = true.
Proof.
  unfold_met_before. tauto.
Qed.

Lemma met_before_StaffAssigned w self :
  met_before StaffAssigned w self <->
  met_before NoOverlap w self /\ Checks.requirement NoOverlap w self = true.
Proof.
  unfold_met_before. tauto.
Qed.

Lemma met_before_HoursRecord w self :
  met_before HoursRecord w self <->
  met_before StaffAssigned w self
  /\ Checks.requirement StaffAssigned w self = true.
Proof.
  unfold_met_before. tauto.
Qed.

Lemma met_before_WeekdayEntry w self :
  met_before WeekdayEntry w self <->
  met_before HoursRecord w self
  /\ Checks.requirement HoursRecord w self = true.
Proof.
  unfold_met_before. tauto.
Qed.

Lemma met_before_TimeStrings w self :
  met_before TimeStrings w self <->
  met_before WeekdayEntry w self
  /\ Checks.requirement WeekdayEntry w self = true.
Proof.
  unfold_met_before. tauto.
Qed.

Lemma met_before_WithinHours w self :
  met_before WithinHours w self <->
  met_before TimeStrings w self
  /\ Checks.requirement TimeStrings w self = true.
Proof.
  unfold_met_before. tauto.
Qed.

Lemma met_before_PaymentStatus w self :
  met_before PaymentStatus w self <->
  met_before WithinHours w self
  /\ Checks.requirement WithinHours w self = true.
Proof.
  unfold_met_before. tauto.
Qed.

(** ** Tactics for closed instances *)

(** Decides a closed comparison of integers by evaluation. *)
Ltac by_evaluation :=
  vm_compute; first [reflexivity | discriminate | intro; discriminate].

(** Decides whether control reached a check in a closed run. *)
Ltac is_reached := vm_compute; repeat (first [now left | right]).
Ltac is_not_reached :=
  let H := fresh in
  intros H; vm_compute in H;
  repeat (destruct H as [H|H]; [discriminate H|]); exact H.

(** ** Check 1: the time range *)

(** X20: what the time-range check does.  A booking whose [start_time]
    compares [>=] to its [end_time], as Python compares two aware
    datetimes, is rejected with a validation error on [start_time], and a
    booking that [clean] accepts has [start_time < end_time] in that
    comparison.  Where the two datetimes carry different [tzinfo] objects
    or the same UTC offset, that comparison is the order of the
    instants. *)
Lemma time_range_check (w : Booking.World) (self : Booking.t) :
  (datetime_ge (Booking.start_time self) (Booking.end_time self) = true ->
   raises w self
     (ValidationError_dict "start_time" "Start time must be before end time."))
  /\ (accepts w self ->
      datetime_lt (Booking.start_time self) (Booking.end_time self) = true)
  /\ (tzinfo (Booking.start_time self) <> tzinfo (Booking.end_time self)
      \/ utcoffset (Booking.start_time self)
         = utcoffset (Booking.end_time self) ->
      (timestamp (Booking.end_time self)
       <= timestamp (Booking.start_time self) ->
       raises w self
         (ValidationError_dict "start_time"
            "Start time must be before end time."))
      /\ (accepts w self ->
          timestamp (Booking.start_time self)
          < timestamp (Booking.end_time self))).
Proof.
  assert (Hge : datetime_ge (Booking.start_time self) (Booking.end_time self)
                = true ->
                raises w self
                  (ValidationError_dict "start_time"
                     "Start time must be before end time.")).
  { intros H. apply (raises_error_of TimeRange w self). split.
    - unfold_met_before. exact I.
    - rewrite datetime_ge_lt in H. now apply negb_true_iff in H. }
  assert (Hlt : accepts w self ->
                datetime_lt (Booking.start_time self) (Booking.end_time self)
                = true).
  { intros Hok. apply accepts_iff in Hok.
    apply List.Forall_cons_iff in Hok as [H1 _]. exact H1. }
  split; [exact Hge|]. split; [exact Hlt|].
  intros Hzone.
  pose proof (datetime_lt_instants _ _ Hzone) as Heq. unfold dt_ltb in Heq.
  split.
  - intros Hlate. apply Hge. rewrite datetime_ge_lt, Heq.
    apply negb_true_iff. lia.
  - intros Hok. apply Hlt in Hok. rewrite Heq in Hok. lia.
Qed.

(** Among datetimes in UTC: a booking from 10:30 back to 10:00 is
    rejected, and the accepted booking 10:00-10:30 has its start before
    its end. *)
Lemma time_range_check_witness :
  raises (Sample.world [])
    (Sample.booking None (Sample.monday 10 30) (Sample.monday 10 0) "pending")
    (ValidationError_dict "start_time" "Start time must be before end time.")
  /\ timestamp (Sample.monday 10 0) < timestamp (Sample.monday 10 30).
Proof.
  split.
  - refine (proj1 (proj2 (proj2 (time_range_check _ _)) _) _);
      [right; reflexivity | by_evaluation].
  - refine (proj2 (proj2 (proj2 (time_range_check (Sample.world [])
                             (Sample.booking None (Sample.monday 10 0)
                                (Sample.monday 10 30) "pending"))) _) _);
      [right; reflexivity | by_evaluation].
Defined.

(** C6, at a failing input.  On Sunday 2024-11-03 the hour from 01:00 to
    02:00 occurs twice in America/New_York.  A booking that starts at
    01:10 of the second pass (06:10 UTC) and ends at 01:30 of the first
    (05:30 UTC), both datetimes carrying the zone's one [tzinfo] object,
    has its start forty minutes after its end; line 120 compares the two
    wall-clock readings, finds 01:10 before 01:30, and [clean] accepts the
    booking, which the table's constraint [start_time_before_end_time]
    then refuses.  The booking with the two datetimes exchanged starts
    before it ends and is rejected. *)
Theorem repeated_hour_defeats_time_range_check :
  let second_0110 := at_zone "America/New_York" (-5) 739193 1 10 in
  let first_0130 := at_zone "America/New_York" (-4) 739193 1 30 in
  let w :=
    Sample.world_of
      [{| Staff_Times.user := 7;
          Staff_Times.working_hours :=
            <["sunday" := Sample.day_entry "12:00AM" "11:59PM"]> ∅ |}] [] in
  let self := Sample.booking None second_0110 first_0130 "pending" in
  let exchanged := Sample.booking None first_0130 second_0110 "pending" in
  timestamp (Booking.end_time self) < timestamp (Booking.start_time self)
  /\ accepts w self
  /\ Constraints.start_time_before_end_time self = false
  /\ timestamp (Booking.start_time exchanged)
     < timestamp (Booking.end_time exchanged)
  /\ raises w exchanged
       (ValidationError_dict "start_time"
          "Start time must be before end time.").
Proof. cbv zeta. repeat split; by_evaluation. Qed.

(** ** Check 2: the twenty-second window *)

(** C5: for a booking with [start_time < end_time], [clean] raises a
    validation error on [start_time] when the start lies strictly before
    the current time minus 20 seconds; when the start is at or after that
    instant the check lets the booking through: control reaches the
    overlap check and that error is not raised. *)
Theorem twenty_second_window (w : Booking.World) (self : Booking.t) :
  datetime_lt (Booking.start_time self) (Booking.end_time self) = true ->
  (timestamp (Booking.start_time self) < window_start w ->
   raises w self
     (ValidationError_dict "start_time"
        "Start time must be at least 20 seconds in the future."))
  /\ (window_start w <= timestamp (Booking.start_time self) ->
      reached NoOverlap w self
      /\ ~ raises w self
             (ValidationError_dict "start_time"
                "Start time must be at least 20 seconds in the future.")).
Proof.
  intros Hrange. apply requirement_TimeRange with (w := w) in Hrange.
  split.
  - intros Hpast. apply (raises_error_of NotInPast w self). split.
    + now apply met_before_NotInPast.
    + apply not_true_iff_false. rewrite requirement_NotInPast. lia.
  - intros Hfresh. apply requirement_NotInPast in Hfresh. split.
    + apply reached_iff, met_before_NoOverlap. now split.
    + intros H. apply (raises_error_of NotInPast w self) in H as [_ H].
      congruence.
Qed.

(** The sample clock reads 2023-12-31 12:00:00; a booking starting at
    11:59:39 is rejected, one starting at 11:59:40 goes on. *)
Lemma twenty_second_window_witness :
  raises (Sample.world [])
    (Sample.booking None (at_utc 738885 11 59 39) (at_utc 738885 12 30 0)
       "pending")
    (ValidationError_dict "start_time"
       "Start time must be at least 20 seconds in the future.")
  /\ reached NoOverlap (Sample.world [])
       (Sample.booking None (at_utc 738885 11 59 40) (at_utc 738885 12 30 0)
          "pending").
Proof.
  split.
  - refine (proj1 (twenty_second_window _ _ _) _); by_evaluation.
  - refine (proj1 (proj2 (twenty_second_window _ _ _) _)); by_evaluation.
Defined.

(** ** Check 3: overlap with existing bookings *)

(** C1: for a booking that passes the time-range and 20-second checks,
    [clean] raises the overlap error (on the field [start_time]) if and
    only if some existing booking of the same service, other than the
    record itself, has [existing.start_time < new.end_time] and
    [existing.end_time > new.start_time]; the check lets the booking
    through exactly when there is no such row; and a row that merely
    touches the new interval at a boundary is not such a row. *)
Theorem overlap_check (w : Booking.World) (self : Booking.t) :
  datetime_lt (Booking.start_time self) (Booking.end_time self) = true ->
  window_start w <= timestamp (Booking.start_time self) ->
  (raises w self
     (ValidationError_dict "start_time"
        "This booking overlaps with an existing booking for the same service.")
   <-> exists e, In e (Booking.objects w) /\ conflicts self e)
  /\ (reached StaffAssigned w self
      <-> ~ exists e, In e (Booking.objects w) /\ conflicts self e)
  /\ (forall e,
        timestamp (Booking.end_time e) = timestamp (Booking.start_time self)
        \/ timestamp (Booking.start_time e) = timestamp (Booking.end_time self) ->
        ~ conflicts self e).
Proof.
  intros Hrange Hfresh.
  apply requirement_TimeRange with (w := w) in Hrange.
  apply requirement_NotInPast in Hfresh.
  assert (Hbefore : met_before NoOverlap w self)
    by now apply met_before_NoOverlap.
  split; [|split].
  - rewrite <- requirement_NoOverlap_false. split.
    + intros H. now apply (raises_error_of NoOverlap w self) in H as [_ H].
    + intros H. apply (raises_error_of NoOverlap w self). now split.
  - rewrite reached_iff, met_before_StaffAssigned.
    rewrite <- requirement_NoOverlap_false, not_false_iff_true. tauto.
  - intros e Htouch (_ & _ & Hlt & Hgt). lia.
Qed.

(** With a stored booking 10:30-11:00, a new booking 10:00-10:30 touches
    it and goes on, while 10:00-10:31 is rejected. *)
Lemma overlap_check_witness :
  reached StaffAssigned
    (Sample.world
       [Sample.booking (Some 1) (Sample.monday 10 30) (Sample.monday 11 0)
          "paid"])
    (Sample.booking None (Sample.monday 10 0) (Sample.monday 10 30) "pending")
  /\ raises
       (Sample.world
          [Sample.booking (Some 1) (Sample.monday 10 30) (Sample.monday 11 0)
             "paid"])
       (Sample.booking None (Sample.monday 10 0) (Sample.monday 10 31)
          "pending")
       (ValidationError_dict "start_time"
          "This booking overlaps with an existing booking for the same service.").
Proof.
  split.
  - refine (proj2 (proj1 (proj2 (overlap_check _ _ _ _))) _);
      [by_evaluation | by_evaluation |].
    intros (e & [<-|[]] & _ & _ & Hlt & _).
    vm_compute in Hlt. discriminate Hlt.
  - refine (proj2 (proj1 (overlap_check _ _ _ _)) _);
      [by_evaluation | by_evaluation |].
    eexists. split; [now left|].
    repeat split; by_evaluation.
Defined.

(** ** Checks 4 and 5: the assigned staff and their working-hours record *)

(** C8: when the time-range, 20-second and overlap checks pass, a booking
    whose service has no assigned staff member is rejected with a
    validation error on [service_id]; so is one whose assigned staff
    member has no working-hours record. *)
Theorem staff_and_hours_record_required (w : Booking.World) (self : Booking.t) :
  datetime_lt (Booking.start_time self) (Booking.end_time self) = true ->
  window_start w <= timestamp (Booking.start_time self) ->
  (forall e, In e (Booking.objects w) -> ~ conflicts self e) ->
  (Service.assigned_staffs (Booking.service_id self) = None ->
   raises w self
     (ValidationError_dict "service_id"
        "No staff is assigned to this service."))
  /\ (forall staff,
        Service.assigned_staffs (Booking.service_id self) = Some staff ->
        (forall r, In r (Booking.Staff_Times_objects w) ->
                   Staff_Times.user r <> staff) ->
        raises w self
          (ValidationError_dict "service_id"
             "Working hours for the assigned staff are not defined.")).
Proof.
  intros Hrange Hfresh Hfree.
  apply requirement_TimeRange with (w := w) in Hrange.
  apply requirement_NotInPast in Hfresh.
  apply requirement_NoOverlap in Hfree.
  assert (Hbefore : met_before StaffAssigned w self).
  { apply met_before_StaffAssigned. split; [|exact Hfree].
    now apply met_before_NoOverlap. }
  split.
  - intros Hnone. apply (raises_error_of StaffAssigned w self).
    split; [exact Hbefore|].
    cbn. unfold Checks.assigned_staff. now rewrite Hnone.
  - intros staff Hstaff Hnorecord.
    apply staff_times_of_None in Hnorecord.
    apply (raises_error_of HoursRecord w self). split.
    + apply met_before_HoursRecord. split; [exact Hbefore|].
      cbn. unfold Checks.assigned_staff. now rewrite Hstaff.
    + cbn. unfold Checks.hours_record, Checks.assigned_staff.
      rewrite Hstaff. cbn. now rewrite Hnorecord.
Qed.

(** A service without staff, and the sample service in a world without
    any working-hours record. *)
Lemma staff_and_hours_record_required_witness :
  raises (Sample.world [])
    {| Booking.id := None;
       Booking.start_time := Sample.monday 10 0;
       Booking.end_time := Sample.monday 10 30;
       Booking.booked_by := 3;
       Booking.service_id :=
         {| Service.pk := 2; Service.assigned_staffs := None |};
       Booking.main_id := 1;
       Booking.branch_id := 1;
       Booking.is_canceled := false;
       Booking.payment_status := "pending" |}
    (ValidationError_dict "service_id" "No staff is assigned to this service.")
  /\ raises (Sample.world_of [] [])
       (Sample.booking None (Sample.monday 10 0) (Sample.monday 10 30)
          "pending")
       (ValidationError_dict "service_id"
          "Working hours for the assigned staff are not defined.").
Proof.
  split.
  - refine (proj1 (staff_and_hours_record_required _ _ _ _ _) _);
      [by_evaluation | by_evaluation | intros e [] | reflexivity].
  - refine (proj2 (staff_and_hours_record_required _ _ _ _ _) 7 _ _);
      [by_evaluation | by_evaluation | intros e [] | reflexivity
      | intros r []].
Defined.

(** ** Canceled bookings and the overlap check *)

Lemma first_failure_ext (req req' : check -> bool) (err err' : check -> exn)
      (cs : list check) :
  (forall c, req c = req' c) -> (forall c, err c = err' c) ->
  Checks.first_failure req err cs = Checks.first_failure req' err' cs.
Proof.
  intros Hreq Herr. induction cs as [|c cs IH]; cbn; [reflexivity|].
  now rewrite Hreq, Herr, IH.
Qed.

Lemma overlapping_flags (flag : Booking.t -> bool) (w : Booking.World)
      (self : Booking.t) :
  Checks.overlapping
    (with_objects
       (map (fun b => set_is_canceled (flag b) b) (Booking.objects w)) w) self
  = map (fun b => set_is_canceled (flag b) b) (Checks.overlapping w self).
Proof.
  unfold Checks.overlapping, Booking.exclude_id. cbn.
  induction (Booking.objects w) as [|b rows IH]; cbn; [reflexivity|].
  change (Booking.overlap_filter self (set_is_canceled (flag b) b))
    with (Booking.overlap_filter self b).
  destruct (Booking.overlap_filter self b); cbn; [|exact IH].
  destruct (bool_decide (Booking.id b = Booking.id self)); cbn;
    [exact IH | now rewrite IH].
Qed.

Lemma exists_map {A B} (f : A -> B) (rows : list A) :
  Booking.exists_ (map f rows) = Booking.exists_ rows.
Proof. now destruct rows. Qed.

(** [clean] does not look at the cancellation flag of stored rows. *)
Lemma clean_ignores_is_canceled (flag : Booking.t -> bool)
      (w : Booking.World) (self : Booking.t) :
  Booking.clean
    (with_objects
       (map (fun b => set_is_canceled (flag b) b) (Booking.objects w)) w) self
  = Booking.clean w self.
Proof.
  rewrite !clean_run. unfold Checks.run.
  apply first_failure_ext; intros c; destruct c; try reflexivity.
  cbn [Checks.requirement]. now rewrite overlapping_flags, exists_map.
Qed.

(** C9: a canceled row blocks like an active one.  When an existing
    booking [e] of the same service is canceled and its interval overlaps
    the new one, [clean] still rejects the new booking: with the overlap
    error once the time-range and 20-second checks pass (and with their
    errors otherwise); and whatever cancellation flags the stored rows
    carry, [clean] behaves the same. *)
Theorem canceled_bookings_still_block (w : Booking.World)
        (self e : Booking.t) :
  In e (Booking.objects w) ->
  Booking.is_canceled e = true ->
  conflicts self e ->
  (exists ve, raises w self (EValidationError ve))
  /\ (datetime_lt (Booking.start_time self) (Booking.end_time self) = true ->
      window_start w <= timestamp (Booking.start_time self) ->
      raises w self
        (ValidationError_dict "start_time"
           "This booking overlaps with an existing booking for the same service."))
  /\ (forall flag : Booking.t -> bool,
        Booking.clean
          (with_objects
             (map (fun b => set_is_canceled (flag b) b) (Booking.objects w)) w)
          self
        = Booking.clean w self).
Proof.
  intros Hin _ Hconflict.
  assert (Hblocked : Checks.requirement NoOverlap w self = false).
  { apply requirement_NoOverlap_false. now exists e. }
  repeat split.
  - destruct (Checks.requirement TimeRange w self) eqn:H1.
    + destruct (Checks.requirement NotInPast w self) eqn:H2.
      * eexists. apply (raises_error_of NoOverlap w self).
        split; [now apply met_before_NoOverlap | exact Hblocked].
      * eexists. apply (raises_error_of NotInPast w self).
        split; [now apply met_before_NotInPast | exact H2].
    + eexists. apply (raises_error_of TimeRange w self).
      split; [unfold_met_before; exact I | exact H1].
  - intros Hrange Hfresh. apply (raises_error_of NoOverlap w self).
    split; [|exact Hblocked]. apply met_before_NoOverlap.
    split; [now apply requirement_TimeRange | now apply requirement_NotInPast].
  - intros flag. apply clean_ignores_is_canceled.
Qed.

(** A canceled row 10:15-10:45 blocks a new booking 10:00-10:30. *)
Lemma canceled_bookings_still_block_witness :
  raises
    (Sample.world
       [set_is_canceled true
          (Sample.booking (Some 1) (Sample.monday 10 15) (Sample.monday 10 45)
             "paid")])
    (Sample.booking None (Sample.monday 10 0) (Sample.monday 10 30) "pending")
    (ValidationError_dict "start_time"
       "This booking overlaps with an existing booking for the same service.").
Proof.
  refine (proj1 (proj2 (canceled_bookings_still_block _ _
                          (set_is_canceled true
                             (Sample.booking (Some 1) (Sample.monday 10 15)
                                (Sample.monday 10 45) "paid")) _ _ _)) _ _).
  - now left.
  - reflexivity.
  - repeat split; by_evaluation.
  - by_evaluation.
  - by_evaluation.
Defined.

(** ** The order of the checks *)

(** The part of [in_order] from [c] on. *)
Lemma in_order_split (c : check) :
  exists back,
    Checks.in_order = (Checks.before c Checks.in_order ++ c :: back)%list.
Proof. destruct c; eexists; vm_compute; reflexivity. Qed.

(** When [c] is the first requirement that is not met, [clean] has begun
    the checks up to [c] and raises the exception of [c]. *)
Lemma clean_stops (c : check) (w : Booking.World) (self : Booking.t) :
  met_before c w self -> Checks.requirement c w self = false ->
  Booking.clean w self
  = ((Checks.before c Checks.in_order ++ [c])%list,
     Raise (Checks.error_of c w self)).
Proof.
  intros Hbefore Hc. rewrite clean_run. unfold Checks.run.
  destruct (in_order_split c) as [back Hsplit].
  rewrite Hsplit at 1.
  now apply (first_failure_stops (fun c => Checks.requirement c w self)).
Qed.

(** C7: the nine checks run in the order the specification lists them
    and the first failing one raises at once.  Whenever the list splits
    into [front], [c] and [back] with every requirement of [front] met and
    that of [c] not, [clean] raises the exception of [c] whatever the
    requirements of [back] say, and the checks it has begun are [front]
    and [c], none of [back]; when all nine are met, it has gone through
    all of them and returns. *)
Theorem checks_run_in_order (w : Booking.World) (self : Booking.t) :
  (forall front c back,
      Checks.in_order = (front ++ c :: back)%list ->
      Forall (fun c' => Checks.requirement c' w self = true) front ->
      Checks.requirement c w self = false ->
      Booking.clean w self
      = ((front ++ [c])%list, Raise (Checks.error_of c w self)))
  /\ (Forall (fun c => Checks.requirement c w self = true) Checks.in_order ->
      Booking.clean w self = (Checks.in_order, Ok tt)).
Proof.
  split.
  - intros front c back Hsplit Hfront Hc.
    rewrite clean_run. unfold Checks.run. rewrite Hsplit.
    now apply (first_failure_stops (fun c => Checks.requirement c w self)).
  - intros Hall. rewrite clean_run. unfold Checks.run.
    now apply (first_failure_passes (fun c => Checks.requirement c w self)).
Qed.

(** A booking in the past that also lies outside the working hours and
    carries an unknown payment status gets the error of the 20-second
    check, the earliest of the three. *)
Lemma checks_run_in_order_witness :
  Checks.requirement WithinHours (Sample.world [])
    (Sample.booking None (at_utc 738879 8 0 0) (at_utc 738879 8 30 0) "bogus")
  = false
  /\ Checks.requirement PaymentStatus (Sample.world [])
       (Sample.booking None (at_utc 738879 8 0 0) (at_utc 738879 8 30 0)
          "bogus")
     = false
  /\ Booking.clean (Sample.world [])
       (Sample.booking None (at_utc 738879 8 0 0) (at_utc 738879 8 30 0)
          "bogus")
     = ([TimeRange; NotInPast],
        Raise
          (ValidationError_dict "start_time"
             "Start time must be at least 20 seconds in the future.")).
Proof.
  split; [by_evaluation|]. split; [by_evaluation|].
  refine (proj1 (checks_run_in_order _ _) [TimeRange] NotInPast
            [NoOverlap; StaffAssigned; HoursRecord; WeekdayEntry; TimeStrings;
             WithinHours; PaymentStatus] _ _ _).
  - reflexivity.
  - constructor; [by_evaluation | constructor].
  - by_evaluation.
Defined.

(** ** The shape of the validation errors *)

(** C2, as stated: every validation error [clean] raises names a field.
    It fails on the payment-status check, whose error is built from a
    message and a code and names no field. *)
Lemma payment_status_error_names_no_field :
  ~ (forall w self ve,
       raises w self (EValidationError ve) ->
       exists field message, ve = FieldError field message).
Proof.
  intros H.
  destruct (H (Sample.world [])
              (Sample.booking None (Sample.monday 10 0) (Sample.monday 10 30)
                 "bogus")
              (MessageError
                 "The status of the booking must be: pending, paid, failed ."
                 "invalid"))
    as (field & message & Hve).
  - by_evaluation.
  - discriminate Hve.
Qed.

Lemma met_before_PaymentStatus_all (w : Booking.World) (self : Booking.t)
      (c : check) :
  met_before PaymentStatus w self -> c <> PaymentStatus ->
  Checks.requirement c w self = true.
Proof.
  intros H Hc. unfold_met_before.
  destruct c; tauto.
Qed.

(** C2, amended: a validation error raised by one of the first eight
    checks names the field [start_time] or [service_id]; the error of the
    payment-status check names no field: it carries a message and the
    code [invalid]. *)
Theorem validation_errors_by_check (w : Booking.World) (self : Booking.t)
        (ve : ValidationError) :
  raises w self (EValidationError ve) ->
  (reached PaymentStatus w self ->
   ve = MessageError
          ("The status of the booking must be: "
           ++ Order_Status_Choices.get_available_choices
                (Booking.Order_Status_Choices w) ++ " .")
          "invalid"
   /\ Booking.not_in_choices w (Booking.payment_status self) = true)
  /\ (~ reached PaymentStatus w self ->
      exists message,
        ve = FieldError "start_time" message
        \/ ve = FieldError "service_id" message).
Proof.
  intros Hraises.
  apply raises_iff in Hraises as (c & Hbefore & Hc & Herr).
  split.
  - intros Hreached. apply reached_iff in Hreached.
    destruct (decide (c = PaymentStatus)) as [->|Hne].
    + cbn in Herr, Hc. injection Herr as <-.
      split; [reflexivity | now apply negb_false_iff].
    + rewrite (met_before_PaymentStatus_all w self c Hreached Hne) in Hc.
      discriminate Hc.
  - intros Hnot.
    assert (Hne : c <> PaymentStatus).
    { intros ->. apply Hnot. now apply reached_iff. }
    destruct c; try contradiction;
      cbn -[Checks.strings_error] in Herr; unfold ValidationError_dict in Herr;
      try (injection Herr as <-; eexists; (now left) || (now right)).
    destruct (strings_error_shape (default ∅ (Checks.day_entry w self)))
      as [Hs|[why Hs]]; rewrite Hs in Herr.
    + injection Herr as <-. eexists. now left.
    + discriminate Herr.
Qed.

(** An unknown payment status yields the error without a field; a
    booking outside the working hours yields one on [start_time]. *)
Lemma validation_errors_by_check_witness :
  (reached PaymentStatus (Sample.world [])
     (Sample.booking None (Sample.monday 10 0) (Sample.monday 10 30) "bogus")
   /\ raises (Sample.world [])
        (Sample.booking None (Sample.monday 10 0) (Sample.monday 10 30)
           "bogus")
        (EValidationError
           (MessageError
              "The status of the booking must be: pending, paid, failed ."
              "invalid")))
  /\ (~ reached PaymentStatus (Sample.world [])
          (Sample.booking None (Sample.monday 8 0) (Sample.monday 8 30)
             "pending")
      /\ exists message,
          FieldError "start_time"
            "Booking times must be within the working hours of the assigned staff."
          = FieldError "start_time" message
          \/ FieldError "start_time"
               "Booking times must be within the working hours of the assigned staff."
             = FieldError "service_id" message).
Proof.
  split; split.
  - is_reached.
  - by_evaluation.
  - is_not_reached.
  - refine (proj2 (validation_errors_by_check (Sample.world [])
                     (Sample.booking None (Sample.monday 8 0)
                        (Sample.monday 8 30) "pending") _ _) _).
    + by_evaluation.
    + is_not_reached.
Defined.

(** ** Checks 6 to 8: the working hours of the day *)

Lemma strptime_time_empty : forall t, strptime_time "" <> Ok t.
Proof. intros t. vm_compute. discriminate. Qed.

Lemma parsed_hours_Some (entry : gmap string string) (day_start day_end : time) :
  Checks.parsed_hours entry = Some (day_start, day_end) <->
  strptime_time (Checks.start_str entry) = Ok day_start
  /\ strptime_time (Checks.end_str entry) = Ok day_end.
Proof.
  unfold Checks.parsed_hours, Checks.complete. split.
  - destruct (String.eqb _ "" || String.eqb _ ""); cbn; [discriminate|].
    destruct (strptime_time (Checks.start_str entry)); [|discriminate].
    destruct (strptime_time (Checks.end_str entry)); [|discriminate].
    now intros [= -> ->].
  - intros [Hs He].
    destruct (String.eqb_spec (Checks.start_str entry) "") as [Heq|_].
    { rewrite Heq in Hs. now apply strptime_time_empty in Hs. }
    destruct (String.eqb_spec (Checks.end_str entry) "") as [Heq|_].
    { rewrite Heq in He. now apply strptime_time_empty in He. }
    cbn. now rewrite Hs, He.
Qed.

Lemma day_hours_iff (w : Booking.World) (self : Booking.t)
      (day_start day_end : time) :
  Checks.day_hours w self = Some (day_start, day_end) <->
  day_hours_are w self day_start day_end.
Proof.
  unfold Checks.day_hours, Checks.day_entry, Checks.hours_record,
    Checks.assigned_staff, day_hours_are.
  split.
  - destruct (Service.assigned_staffs _) as [staff|] eqn:Hstaff;
      [|discriminate].
    cbn. destruct (Booking.staff_times_of w staff) as [record|] eqn:Hrecord;
      [|discriminate].
    cbn. destruct (Staff_Times.working_hours record !! _) as [entry|]
      eqn:Hentry; [|discriminate].
    cbn. intros H. apply parsed_hours_Some in H as [Hs He].
    exists staff, record, entry.
    split; [reflexivity|]. split; [exact Hrecord|]. split; [exact Hentry|].
    split; [exact Hs | exact He].
  - intros (staff & record & entry & Hstaff & Hrecord & Hentry & Hs & He).
    rewrite Hstaff. cbn [mbind option_bind].
    rewrite Hrecord. cbn [mbind option_bind].
    rewrite Hentry. cbn [mbind option_bind].
    apply parsed_hours_Some. split; [exact Hs | exact He].
Qed.

(** An entry whose start or end string is missing or empty is rejected
    with a validation error. *)
Lemma incomplete_entry_rejected (w : Booking.World) (self : Booking.t)
      (entry : gmap string string) :
  reached TimeStrings w self ->
  Checks.day_entry w self = Some entry ->
  default "" (entry !! "start") = "" \/ default "" (entry !! "end") = "" ->
  raises w self
    (ValidationError_dict "start_time"
       "Working hours are incomplete for this day.").
Proof.
  intros Hreached Hentry Hempty. apply reached_iff in Hreached.
  assert (Hincomplete : Checks.complete entry = false).
  { unfold Checks.complete, Checks.start_str, Checks.end_str.
    apply negb_false_iff, orb_true_iff.
    destruct Hempty as [->| ->]; [now left | now right]. }
  pose proof (clean_stops TimeStrings w self Hreached) as Hstop.
  unfold raises. rewrite Hstop.
  - cbn. rewrite Hentry. cbn. unfold Checks.strings_error.
    now rewrite Hincomplete.
  - cbn. unfold Checks.day_hours. rewrite Hentry. cbn.
    unfold Checks.parsed_hours. now rewrite Hincomplete.
Qed.

(** An entry with two non-empty strings of which one does not parse makes
    [clean] end with the [ValueError] of [strptime]. *)
Lemma unparsable_entry_raises_ValueError (w : Booking.World)
      (self : Booking.t) (entry : gmap string string) :
  reached TimeStrings w self ->
  Checks.day_entry w self = Some entry ->
  default "" (entry !! "start") <> "" ->
  default "" (entry !! "end") <> "" ->
  (forall t, strptime_time (default "" (entry !! "start")) <> Ok t)
  \/ (forall t, strptime_time (default "" (entry !! "end")) <> Ok t) ->
  exists why, raises w self (EValueError why).
Proof.
  intros Hreached Hentry Hstart Hend Hbad. apply reached_iff in Hreached.
  assert (Hcomplete : Checks.complete entry = true).
  { unfold Checks.complete, Checks.start_str, Checks.end_str.
    apply negb_true_iff, orb_false_iff.
    split; now apply String.eqb_neq. }
  assert (Hnone : Checks.parsed_hours entry = None).
  { destruct (Checks.parsed_hours entry) as [[ds de]|] eqn:Hp; [|reflexivity].
    apply parsed_hours_Some in Hp as [Hs He].
    destruct Hbad as [Hbad|Hbad]; [now apply Hbad in Hs | now apply Hbad in He]. }
  pose proof (clean_stops TimeStrings w self Hreached) as Hstop.
  unfold raises. rewrite Hstop.
  - cbn. rewrite Hentry. cbn.
    destruct (strings_error_shape entry) as [Hs|[why Hs]].
    + unfold Checks.strings_error in Hs. rewrite Hcomplete in Hs.
      unfold Checks.parsed_hours in Hnone. rewrite Hcomplete in Hnone.
      destruct (strptime_time (Checks.start_str entry)) as [?|e1] eqn:H1.
      * destruct (strptime_time (Checks.end_str entry)) as [?|e2] eqn:H2;
          [discriminate Hnone|].
        destruct (strptime_time_raises _ _ H2) as [why ->]. discriminate Hs.
      * destruct (strptime_time_raises _ _ H1) as [why ->]. discriminate Hs.
    + exists why. now rewrite Hs.
  - cbn. unfold Checks.day_hours. rewrite Hentry. cbn. now rewrite Hnone.
Qed.

(** C3, at a failing input: the staff member's Monday entry reads
    start "9am", end "05:00PM".  Both strings are present and the first
    does not parse; [clean] ends with the [ValueError] that [strptime]
    raises, which is no validation error. *)
Theorem unparsable_hours_escape_as_ValueError :
  let record :=
    {| Staff_Times.user := 7;
       Staff_Times.working_hours :=
         <["monday" := Sample.day_entry "9am" "05:00PM"]> ∅ |} in
  let self :=
    Sample.booking None (Sample.monday 10 0) (Sample.monday 10 30) "pending" in
  Booking.clean (Sample.world_of [record] []) self
  = ([TimeRange; NotInPast; NoOverlap; StaffAssigned; HoursRecord;
      WeekdayEntry; TimeStrings],
     Raise (EValueError DoesNotMatchFormat))
  /\ forall ve,
       ~ raises (Sample.world_of [record] []) self (EValidationError ve).
Proof.
  cbv zeta. split; [by_evaluation|].
  intros ve H. vm_compute in H. discriminate H.
Qed.

(** On times whose fields are in range, the tuple order is the order of
    the microseconds since midnight. *)
Lemma time_leb_micros (a b : time) :
  time_in_range a -> time_in_range b ->
  (time_leb a b = true <-> micros_of_time a <= micros_of_time b).
Proof.
  unfold time_in_range, time_leb, time_compare, micros_of_time.
  intros (Hh & Hm & Hs & Hu) (Hh' & Hm' & Hs' & Hu').
  destruct (Z.compare_spec (hour a) (hour b));
    [destruct (Z.compare_spec (minute a) (minute b));
     [destruct (Z.compare_spec (second a) (second b));
      [destruct (Z.compare_spec (microsecond a) (microsecond b))|..]|..]|..];
    split; intros; try reflexivity; try discriminate; lia.
Qed.

Lemma time_of_in_range (d : datetime) : time_in_range (time_of d).
Proof.
  unfold time_in_range, time_of, us_per_day, us_per_second. cbn.
  pose proof (Z.mod_pos_bound (wall d) (86400 * 1000000) ltac:(lia)) as Hus.
  set (us := wall d mod (86400 * 1000000)) in *.
  repeat split;
    try (apply Z.mod_pos_bound; lia);
    try (apply Z.div_pos; lia);
    try (apply Z.div_lt_upper_bound; lia).
Qed.

(** C4: a booking that reaches the working-hours check gets past it if
    and only if the time of day of its start and the time of day of its
    end both lie in the closed interval from [day_start] to [day_end], the
    two times parsed from the staff member's entry for the weekday; such
    an entry exists whenever the check is reached, and a booking that is
    not inside is rejected with a validation error on [start_time]. *)
Theorem within_hours_check (w : Booking.World) (self : Booking.t) :
  reached WithinHours w self ->
  (exists day_start day_end, day_hours_are w self day_start day_end)
  /\ (forall day_start day_end,
        day_hours_are w self day_start day_end ->
        (reached PaymentStatus w self <->
         Checks.within day_start day_end
           (time_of (Booking.start_time self)) = true
         /\ Checks.within day_start day_end
              (time_of (Booking.end_time self)) = true)
        /\ (~ (Checks.within day_start day_end
                 (time_of (Booking.start_time self)) = true
               /\ Checks.within day_start day_end
                    (time_of (Booking.end_time self)) = true) ->
            raises w self
              (ValidationError_dict "start_time"
                 "Booking times must be within the working hours of the assigned staff."))).
Proof.
  intros Hreached. apply reached_iff in Hreached.
  pose proof Hreached as Hparsed.
  apply met_before_WithinHours in Hparsed as [_ Hparsed].
  split.
  - cbn in Hparsed.
    destruct (Checks.day_hours w self) as [[day_start day_end]|] eqn:Hhours;
      [|discriminate Hparsed].
    exists day_start, day_end. now apply day_hours_iff.
  - intros day_start day_end Hhours. apply day_hours_iff in Hhours.
    assert (Hreq : Checks.requirement WithinHours w self
                   = Checks.within day_start day_end
                       (time_of (Booking.start_time self))
                     && Checks.within day_start day_end
                          (time_of (Booking.end_time self))).
    { cbn. now rewrite Hhours. }
    split.
    + rewrite reached_iff, met_before_PaymentStatus, Hreq, andb_true_iff.
      tauto.
    + intros Houtside. apply (raises_error_of WithinHours w self).
      split; [exact Hreached|].
      rewrite Hreq. apply not_true_iff_false.
      now rewrite andb_true_iff.
Qed.

(** The example of the specification: with Monday hours 09:00AM-05:00PM,
    a booking Monday 10:00-10:30 gets past the check and a booking Monday
    08:00-08:30 is rejected. *)
Lemma within_hours_check_witness :
  day_hours_are (Sample.world [])
    (Sample.booking None (Sample.monday 10 0) (Sample.monday 10 30) "pending")
    (mk_time 9 0 0 0) (mk_time 17 0 0 0)
  /\ reached PaymentStatus (Sample.world [])
       (Sample.booking None (Sample.monday 10 0) (Sample.monday 10 30)
          "pending")
  /\ raises (Sample.world [])
       (Sample.booking None (Sample.monday 8 0) (Sample.monday 8 30)
          "pending")
       (ValidationError_dict "start_time"
          "Booking times must be within the working hours of the assigned staff.").
Proof.
  assert (Hhours : forall from to,
             strftime_A_lower from = "monday" ->
             day_hours_are (Sample.world [])
               (Sample.booking None from to "pending")
               (mk_time 9 0 0 0) (mk_time 17 0 0 0)).
  { intros from to Hday. exists 7, Sample.hours_of_7.
    exists (Sample.day_entry "09:00AM" "05:00PM").
    change (Booking.start_time (Sample.booking None from to "pending"))
      with from.
    rewrite Hday. repeat split; by_evaluation. }
  split; [apply Hhours; by_evaluation|]. split.
  - refine (proj2 (proj1 (proj2 (within_hours_check _ _ _) _ _
                            (Hhours _ _ _))) _);
      [is_reached | by_evaluation | split; by_evaluation].
  - refine (proj2 (proj2 (within_hours_check _ _ _) _ _ (Hhours _ _ _)) _);
      [is_reached | by_evaluation |].
    intros [H _]. vm_compute in H. discriminate H.
Defined.

(** The interval is closed: a booking from 09:00 to 17:00 sharp is
    accepted, one that ends a second later is not. *)
Example boundary_times_accepted :
  accepts (Sample.world [])
    (Sample.booking None (Sample.monday 9 0) (Sample.monday 17 0) "pending")
  /\ raises (Sample.world [])
       (Sample.booking None (Sample.monday 9 0) (at_utc 738886 17 0 1)
          "pending")
       (ValidationError_dict "start_time"
          "Booking times must be within the working hours of the assigned staff.").
Proof. split; by_evaluation. Qed.

(** ** The working-hours check and dates *)

Lemma day_entry_same (w : Booking.World) (self self' : Booking.t) :
  Booking.service_id self' = Booking.service_id self ->
  strftime_A_lower (Booking.start_time self')
  = strftime_A_lower (Booking.start_time self) ->
  Checks.day_entry w self' = Checks.day_entry w self.
Proof.
  intros Hservice Hday.
  unfold Checks.day_entry, Checks.hours_record, Checks.assigned_staff.
  now rewrite Hservice, Hday.
Qed.

(** C10: the working-hours check looks at the weekday of [start_time] and
    at the two times of day only.  Two bookings of the same service that
    reach the weekday check and agree on the weekday of the start and on
    both times of day fare alike in it, whatever their dates; the entry
    consulted is the one of the start's weekday; a booking whose two
    times of day lie inside that day's hours gets past the check, with
    no condition on its dates; so a booking from Monday 10:00 to Wednesday
    10:30 is accepted on Monday's hours 09:00AM-05:00PM alone. *)
Theorem working_hours_ignore_dates (w : Booking.World) (self : Booking.t) :
  (forall self',
      Booking.service_id self' = Booking.service_id self ->
      strftime_A_lower (Booking.start_time self')
      = strftime_A_lower (Booking.start_time self) ->
      time_of (Booking.start_time self') = time_of (Booking.start_time self) ->
      time_of (Booking.end_time self') = time_of (Booking.end_time self) ->
      reached WeekdayEntry w self ->
      reached WeekdayEntry w self' ->
      (reached PaymentStatus w self' <-> reached PaymentStatus w self)
      /\ (~ reached PaymentStatus w self ->
          outcome (Booking.clean w self') = outcome (Booking.clean w self)))
  /\ (forall day_start day_end,
        reached WithinHours w self ->
        day_hours_are w self day_start day_end ->
        Checks.within day_start day_end
          (time_of (Booking.start_time self)) = true ->
        Checks.within day_start day_end
          (time_of (Booking.end_time self)) = true ->
        reached PaymentStatus w self)
  /\ (let long :=
        Sample.booking None (Sample.monday 10 0) (Sample.wednesday 10 30)
          "pending" in
      timestamp (Booking.end_time long) - timestamp (Booking.start_time long)
      > 2 * us_per_day
      /\ Staff_Times.working_hours Sample.hours_of_7 !! "wednesday" = None
      /\ accepts (Sample.world []) long).
Proof.
  split; [|split].
  - intros self' Hservice Hday Hstart Hend Hreached Hreached'.
    apply reached_iff in Hreached, Hreached'.
    pose proof (day_entry_same w self self' Hservice Hday) as Hentry.
    assert (Hreq : forall c, In c [WeekdayEntry; TimeStrings; WithinHours] ->
                Checks.requirement c w self' = Checks.requirement c w self
                /\ Checks.error_of c w self' = Checks.error_of c w self).
    { intros c [<-|[<-|[<-|[]]]]; cbn; unfold Checks.day_hours;
        now rewrite Hentry, ?Hstart, ?Hend. }
    destruct (Hreq WeekdayEntry) as [H6 _]; [cbn; tauto|].
    destruct (Hreq TimeStrings) as [H7 E7]; [cbn; tauto|].
    destruct (Hreq WithinHours) as [H8 E8]; [cbn; tauto|].
    destruct (Hreq WeekdayEntry) as [_ E6]; [cbn; tauto|].
    split.
    + rewrite !reached_iff, !met_before_PaymentStatus,
        !met_before_WithinHours, !met_before_TimeStrings, H6, H7, H8.
      tauto.
    + intros Hnot. rewrite reached_iff, met_before_PaymentStatus,
        met_before_WithinHours, met_before_TimeStrings in Hnot.
      destruct (Checks.requirement WeekdayEntry w self) eqn:R6.
      * destruct (Checks.requirement TimeStrings w self) eqn:R7.
        -- destruct (Checks.requirement WithinHours w self) eqn:R8;
             [tauto|].
           rewrite (clean_stops WithinHours w self),
             (clean_stops WithinHours w self'); cbn [outcome snd];
             rewrite ?E8; try reflexivity; try assumption;
             try (apply met_before_WithinHours; split;
                  [apply met_before_TimeStrings; split|]; congruence);
             congruence.
        -- rewrite (clean_stops TimeStrings w self),
             (clean_stops TimeStrings w self'); cbn [outcome snd];
             rewrite ?E7; try reflexivity; try assumption;
             try (apply met_before_TimeStrings; split; congruence);
             congruence.
      * rewrite (clean_stops WeekdayEntry w self),
          (clean_stops WeekdayEntry w self'); cbn [outcome snd];
          rewrite ?E6; try reflexivity; try assumption; congruence.
  - intros day_start day_end Hreached Hhours Hs He.
    apply reached_iff in Hreached.
    apply reached_iff, met_before_PaymentStatus. split; [exact Hreached|].
    apply day_hours_iff in Hhours. cbn. now rewrite Hhours, Hs, He.
  - cbv zeta. repeat split; by_evaluation.
Qed.

(** ** What [strptime] returns *)

Lemma in_range_digit (lo hi c : ascii) :
  in_range lo hi c = true ->
  digit_value lo <= digit_value c <= digit_value hi.
Proof.
  unfold in_range, digit_value. rewrite andb_true_iff, !N.leb_le. lia.
Qed.

Section GroupFacts.
Context {A : Type}.

Lemma or_else_Some (x y : option A) (r : A) :
  or_else x y = Some r -> x = Some r \/ y = Some r.
Proof. destruct x; cbn; intros H; [now left | now right]. Qed.

Lemma group_I_range (s : string) (k : Z -> string -> option A) (r : A) :
  group_I s k = Some r ->
  exists v rest, 1 <= v <= 12 /\ k v rest = Some r.
Proof.
  unfold group_I. intros H.
  apply or_else_Some in H as [H|H]; [|apply or_else_Some in H as [H|H]].
  - destruct s as [|a [|c rest]]; try discriminate H.
    destruct (Ascii.eqb a "1" && in_range "0" "2" c) eqn:Hc;
      [|discriminate H].
    apply andb_true_iff in Hc as [_ Hc]. apply in_range_digit in Hc.
    change (digit_value "0") with 0 in Hc.
    change (digit_value "2") with 2 in Hc.
    exists (10 + digit_value c), rest. split; [lia | exact H].
  - destruct s as [|a [|c rest]]; try discriminate H.
    destruct (Ascii.eqb a "0" && in_range "1" "9" c) eqn:Hc;
      [|discriminate H].
    apply andb_true_iff in Hc as [_ Hc]. apply in_range_digit in Hc.
    change (digit_value "1") with 1 in Hc.
    change (digit_value "9") with 9 in Hc.
    exists (digit_value c), rest. split; [lia | exact H].
  - destruct s as [|c rest]; try discriminate H.
    destruct (in_range "1" "9" c) eqn:Hc; [|discriminate H].
    apply in_range_digit in Hc.
    change (digit_value "1") with 1 in Hc.
    change (digit_value "9") with 9 in Hc.
    exists (digit_value c), rest. split; [lia | exact H].
Qed.

Lemma group_M_range (s : string) (k : Z -> string -> option A) (r : A) :
  group_M s k = Some r ->
  exists v rest, 0 <= v <= 59 /\ k v rest = Some r.
Proof.
  unfold group_M. intros H. apply or_else_Some in H as [H|H].
  - destruct s as [|c [|d rest]]; try discriminate H.
    destruct (in_range "0" "5" c && in_range "0" "9" d) eqn:Hc;
      [|discriminate H].
    apply andb_true_iff in Hc as [Hc Hd].
    apply in_range_digit in Hc, Hd.
    change (digit_value "0") with 0 in Hc, Hd.
    change (digit_value "5") with 5 in Hc.
    change (digit_value "9") with 9 in Hd.
    exists (10 * digit_value c + digit_value d), rest.
    split; [lia | exact H].
  - destruct s as [|d rest]; try discriminate H.
    destruct (in_range "0" "9" d) eqn:Hd; [|discriminate H].
    apply in_range_digit in Hd.
    change (digit_value "0") with 0 in Hd.
    change (digit_value "9") with 9 in Hd.
    exists (digit_value d), rest. split; [lia | exact H].
Qed.

Lemma group_p_marker (s : string) (k : string -> string -> option A)
      (r : A) :
  group_p s k = Some r ->
  exists p rest, (p = "am" \/ p = "pm") /\ k p rest = Some r.
Proof.
  unfold group_p. intros H. apply or_else_Some in H as [H|H];
    destruct s as [|a [|m rest]]; try discriminate H.
  - destruct (is_letter "a" a && is_letter "m" m); [|discriminate H].
    exists "am", rest. split; [now left | exact H].
  - destruct (is_letter "p" a && is_letter "m" m); [|discriminate H].
    exists "pm", rest. split; [now right | exact H].
Qed.

Lemma literal_Some (ch : ascii) (s : string) (k : string -> option A)
      (r : A) :
  literal ch s k = Some r -> exists rest, k rest = Some r.
Proof.
  unfold literal. destruct s as [|c rest]; [discriminate|].
  destruct (Ascii.eqb c ch); [|discriminate]. intros H. now exists rest.
Qed.

End GroupFacts.

(** A time that [strptime] returns for the format is a time of day with
    no seconds: the hour is below 24 and the minute below 60. *)
Lemma strptime_time_in_range (data_string : string) (t : time) :
  strptime_time data_string = Ok t ->
  time_in_range t /\ second t = 0 /\ microsecond t = 0.
Proof.
  unfold strptime_time.
  destruct (format_regex_match data_string)
    as [[[[found_I found_M] found_p] rest]|] eqn:Hmatch; [|discriminate].
  destruct (String.eqb rest ""); [|discriminate]. intros [= <-].
  unfold format_regex_match in Hmatch.
  apply group_I_range in Hmatch as (v & s1 & Hv & Hmatch).
  apply literal_Some in Hmatch as (s2 & Hmatch).
  apply group_M_range in Hmatch as (m & s3 & Hm & Hmatch).
  apply group_p_marker in Hmatch as (p & s4 & Hp & Hmatch).
  injection Hmatch as <- <- <- <-.
  unfold time_in_range; cbn.
  assert (0 <= hour_of v p < 24); [|lia].
  unfold hour_of.
  destruct Hp as [-> | ->]; cbn; destruct (v =? 12) eqn:H12; cbn; lia.
Qed.

(** The closed interval of the working-hours check, in microseconds since
    midnight. *)
Lemma within_micros (data_start data_end : string) (day_start day_end : time)
      (d : datetime) :
  strptime_time data_start = Ok day_start ->
  strptime_time data_end = Ok day_end ->
  (Checks.within day_start day_end (time_of d) = true <->
   micros_of_time day_start <= micros_of_time (time_of d)
   <= micros_of_time day_end).
Proof.
  intros Hs He.
  apply strptime_time_in_range in Hs as [Hs _], He as [He _].
  pose proof (time_of_in_range d) as Hd.
  unfold Checks.within. rewrite andb_true_iff.
  now rewrite (time_leb_micros _ _ Hs Hd), (time_leb_micros _ _ Hd He).
Qed.

(** A booking from Monday 10:00 to Wednesday 10:30 fares like one from
    Monday 10:00 to Monday 10:30. *)
Lemma working_hours_ignore_dates_witness :
  reached PaymentStatus (Sample.world [])
    (Sample.booking None (Sample.monday 10 0) (Sample.wednesday 10 30)
       "pending")
  <-> reached PaymentStatus (Sample.world [])
        (Sample.booking None (Sample.monday 10 0) (Sample.monday 10 30)
           "pending").
Proof.
  refine (proj1 (proj1 (working_hours_ignore_dates (Sample.world [])
                          (Sample.booking None (Sample.monday 10 0)
                             (Sample.monday 10 30) "pending"))
                   (Sample.booking None (Sample.monday 10 0)
                      (Sample.wednesday 10 30) "pending") _ _ _ _ _ _)).
  - reflexivity.
  - by_evaluation.
  - by_evaluation.
  - by_evaluation.
  - is_reached.
  - is_reached.
Defined.

(** * Further properties of [clean] *)

(** ** Which bookings are accepted *)

Lemma not_in_choices_false (w : Booking.World) (value : string) :
  Booking.not_in_choices w value = false <->
  In value (Constraints.values (Booking.Order_Status_Choices w)).
Proof.
  unfold Booking.not_in_choices, Constraints.values.
  rewrite negb_false_iff, existsb_exists, in_map_iff. split.
  - intros (c & Hin & Heq). apply String.eqb_eq in Heq. now exists c.
  - intros (c & Heq & Hin). exists c. split; [exact Hin|].
    now apply String.eqb_eq.
Qed.

Lemma requirement_WithinHours (w : Booking.World) (self : Booking.t) :
  Checks.requirement WithinHours w self = true <->
  exists day_start day_end,
    day_hours_are w self day_start day_end
    /\ Checks.within day_start day_end
         (time_of (Booking.start_time self)) = true
    /\ Checks.within day_start day_end
         (time_of (Booking.end_time self)) = true.
Proof.
  cbn. split.
  - destruct (Checks.day_hours w self) as [[day_start day_end]|] eqn:Hhours;
      [|discriminate].
    intros H. apply andb_true_iff in H. exists day_start, day_end.
    split; [now apply day_hours_iff | exact H].
  - intros (day_start & day_end & Hhours & Hs & He).
    apply day_hours_iff in Hhours. now rewrite Hhours, Hs, He.
Qed.

Lemma requirement_WithinHours_earlier (w : Booking.World) (self : Booking.t) :
  Checks.requirement WithinHours w self = true ->
  Checks.requirement StaffAssigned w self = true
  /\ Checks.requirement HoursRecord w self = true
  /\ Checks.requirement WeekdayEntry w self = true
  /\ Checks.requirement TimeStrings w self = true.
Proof.
  cbn. unfold Checks.day_hours, Checks.day_entry, Checks.hours_record.
  destruct (Checks.assigned_staff self) as [staff|]; [|discriminate].
  cbn. destruct (Booking.staff_times_of w staff) as [record|];
    [|discriminate].
  cbn. destruct (Staff_Times.working_hours record !! _) as [entry|];
    [|discriminate].
  cbn. destruct (Checks.parsed_hours entry) as [[? ?]|]; [|discriminate].
  now intros _.
Qed.

(** X1: [clean] returns normally exactly for the bookings whose
    [start_time] compares [<] to their [end_time] as Python compares two
    aware datetimes (by wall clock when both carry the same [tzinfo]
    object, by instant otherwise), that start no earlier than 20 seconds
    before the clock reading, meet no conflicting row, have both times of
    day inside the parsed hours of the start's weekday, and carry a
    payment status among the values of the enumeration. *)
Theorem accepted_iff (w : Booking.World) (self : Booking.t) :
  accepts w self <->
  datetime_lt (Booking.start_time self) (Booking.end_time self) = true
  /\ window_start w <= timestamp (Booking.start_time self)
  /\ (forall e, In e (Booking.objects w) -> ~ conflicts self e)
  /\ (exists day_start day_end,
         day_hours_are w self day_start day_end
         /\ Checks.within day_start day_end
              (time_of (Booking.start_time self)) = true
         /\ Checks.within day_start day_end
              (time_of (Booking.end_time self)) = true)
  /\ In (Booking.payment_status self)
       (Constraints.values (Booking.Order_Status_Choices w)).
Proof.
  rewrite accepts_iff. unfold Checks.in_order.
  rewrite !List.Forall_cons_iff, List.Forall_nil_iff.
  rewrite <- requirement_TimeRange with (w := w).
  rewrite <- requirement_NotInPast, <- requirement_NoOverlap.
  rewrite <- requirement_WithinHours, <- not_in_choices_false.
  change (Checks.requirement PaymentStatus w self)
    with (negb (Booking.not_in_choices w (Booking.payment_status self))).
  rewrite negb_true_iff.
  pose proof (requirement_WithinHours_earlier w self). tauto.
Qed.

(** ** The weekday entry and its strings *)

Lemma day_entry_iff (w : Booking.World) (self : Booking.t)
      (entry : gmap string string) :
  Checks.day_entry w self = Some entry <-> day_entry_is w self entry.
Proof.
  unfold Checks.day_entry, Checks.hours_record, Checks.assigned_staff,
    day_entry_is.
  split.
  - destruct (Service.assigned_staffs _) as [staff|] eqn:Hstaff;
      [|discriminate].
    cbn [mbind option_bind].
    destruct (Booking.staff_times_of w staff) as [record|] eqn:Hrecord;
      [|discriminate].
    cbn [mbind option_bind]. intros Hentry. now exists staff, record.
  - intros (staff & record & Hstaff & Hrecord & Hentry).
    rewrite Hstaff. cbn [mbind option_bind].
    rewrite Hrecord. cbn [mbind option_bind]. exact Hentry.
Qed.

(** X2: a booking that reaches the weekday check while the working-hours
    record of the assigned staff member has no entry for the weekday of
    [start_time] is rejected with a validation error on [start_time]. *)
Theorem weekday_entry_required (w : Booking.World) (self : Booking.t)
        (staff : Z) (record : Staff_Times.t) :
  reached WeekdayEntry w self ->
  Service.assigned_staffs (Booking.service_id self) = Some staff ->
  Booking.staff_times_of w staff = Some record ->
  Staff_Times.working_hours record
    !! strftime_A_lower (Booking.start_time self) = None ->
  raises w self
    (ValidationError_dict "start_time"
       "Working hours for this day are not defined.").
Proof.
  intros Hreached Hstaff Hrecord Hnone. apply reached_iff in Hreached.
  apply (raises_error_of WeekdayEntry w self). split; [exact Hreached|].
  cbn. unfold Checks.day_entry, Checks.hours_record, Checks.assigned_staff.
  rewrite Hstaff. cbn [mbind option_bind].
  rewrite Hrecord. cbn [mbind option_bind]. now rewrite Hnone.
Qed.

(** The sample staff member has Monday hours only; a Tuesday booking is
    rejected. *)
Lemma weekday_entry_required_witness :
  raises (Sample.world [])
    (Sample.booking None (at_utc 738887 10 0 0) (at_utc 738887 10 30 0)
       "pending")
    (ValidationError_dict "start_time"
       "Working hours for this day are not defined.").
Proof.
  refine (weekday_entry_required _ _ 7 Sample.hours_of_7 _ _ _ _).
  - is_reached.
  - reflexivity.
  - by_evaluation.
  - by_evaluation.
Defined.

(** X3: a booking that reaches the string check is rejected with a
    validation error on [start_time] when the day's entry lacks the key
    "start" or the key "end", or holds the empty string under one of
    them. *)
Theorem incomplete_hours_rejected (w : Booking.World) (self : Booking.t)
        (entry : gmap string string) :
  reached TimeStrings w self ->
  day_entry_is w self entry ->
  entry !! "start" = None \/ entry !! "start" = Some ""
  \/ entry !! "end" = None \/ entry !! "end" = Some "" ->
  raises w self
    (ValidationError_dict "start_time"
       "Working hours are incomplete for this day.").
Proof.
  intros Hreached Hentry Hmissing. apply day_entry_iff in Hentry.
  apply (incomplete_entry_rejected w self entry Hreached Hentry).
  destruct Hmissing as [H|[H|[H|H]]]; rewrite H; cbn; tauto.
Qed.

(** A Monday entry that has a start but no end. *)
Lemma incomplete_hours_rejected_witness :
  raises
    (Sample.world_of
       [{| Staff_Times.user := 7;
           Staff_Times.working_hours :=
             <["monday" := <["start" := "09:00AM"]> ∅]> ∅ |}] [])
    (Sample.booking None (Sample.monday 10 0) (Sample.monday 10 30) "pending")
    (ValidationError_dict "start_time"
       "Working hours are incomplete for this day.").
Proof.
  refine (incomplete_hours_rejected _ _ (<["start" := "09:00AM"]> ∅) _ _ _).
  - is_reached.
  - eexists 7, _. repeat split; by_evaluation.
  - right. right. left. by_evaluation.
Defined.

(** X4: a booking that reaches the string check with both strings
    present and non-empty, of which one does not parse in the format
    ["%I:%M%p"], makes [clean] end with the [ValueError] of [strptime];
    no validation error is raised. *)
Theorem unparsable_hours_raise_ValueError (w : Booking.World)
        (self : Booking.t) (entry : gmap string string) :
  reached TimeStrings w self ->
  day_entry_is w self entry ->
  default "" (entry !! "start") <> "" ->
  default "" (entry !! "end") <> "" ->
  (forall t, strptime_time (default "" (entry !! "start")) <> Ok t)
  \/ (forall t, strptime_time (default "" (entry !! "end")) <> Ok t) ->
  (exists why, raises w self (EValueError why))
  /\ (forall ve, ~ raises w self (EValidationError ve)).
Proof.
  intros Hreached Hentry Hstart Hend Hbad. apply day_entry_iff in Hentry.
  destruct (unparsable_entry_raises_ValueError w self entry Hreached Hentry
              Hstart Hend Hbad) as [why Hraises].
  split; [now exists why|].
  intros ve Hve. unfold raises in *. congruence.
Qed.

(** Hours written on a 24-hour clock: "09:00"-"17:00". *)
Lemma unparsable_hours_raise_ValueError_witness :
  exists why,
    raises
      (Sample.world_of
         [{| Staff_Times.user := 7;
             Staff_Times.working_hours :=
               <["monday" := Sample.day_entry "09:00" "17:00"]> ∅ |}] [])
      (Sample.booking None (Sample.monday 10 0) (Sample.monday 10 30)
         "pending")
      (EValueError why).
Proof.
  refine (proj1 (unparsable_hours_raise_ValueError _ _
                   (Sample.day_entry "09:00" "17:00") _ _ _ _ _)).
  - is_reached.
  - eexists 7, _. repeat split; by_evaluation.
  - by_evaluation.
  - by_evaluation.
  - left. intros t. by_evaluation.
Defined.

(** ** The payment status *)

(** X5: a booking that reaches the payment-status check is accepted when
    its [payment_status] is one of the values of the enumeration, and
    otherwise rejected with the error that carries the code [invalid]. *)
Theorem payment_status_check (w : Booking.World) (self : Booking.t) :
  reached PaymentStatus w self ->
  (In (Booking.payment_status self)
      (Constraints.values (Booking.Order_Status_Choices w)) ->
   accepts w self)
  /\ (~ In (Booking.payment_status self)
          (Constraints.values (Booking.Order_Status_Choices w)) ->
      raises w self
        (EValidationError
           (MessageError
              ("The status of the booking must be: "
               ++ Order_Status_Choices.get_available_choices
                    (Booking.Order_Status_Choices w) ++ " .")
              "invalid"))).
Proof.
  intros Hreached. apply reached_iff in Hreached. split.
  - intros Hin. apply not_in_choices_false in Hin.
    apply accepts_iff. unfold Checks.in_order.
    unfold_met_before.
    change (Checks.requirement PaymentStatus w self)
      with (negb (Booking.not_in_choices w (Booking.payment_status self))).
    rewrite Hin. cbn [negb]. tauto.
  - intros Hout. apply (raises_error_of PaymentStatus w self).
    split; [exact Hreached|]. cbn. apply negb_false_iff.
    apply not_false_iff_true. now rewrite not_in_choices_false.
Qed.

(** In the sample world "paid" is a value of the enumeration and "PAID"
    is not. *)
Lemma payment_status_check_witness :
  accepts (Sample.world [])
    (Sample.booking None (Sample.monday 10 0) (Sample.monday 10 30) "paid")
  /\ raises (Sample.world [])
       (Sample.booking None (Sample.monday 10 0) (Sample.monday 10 30) "PAID")
       (EValidationError
          (MessageError
             "The status of the booking must be: pending, paid, failed ."
             "invalid")).
Proof.
  split.
  - refine (proj1 (payment_status_check _ _ _) _);
      [is_reached | right; left; reflexivity].
  - refine (proj2 (payment_status_check _ _ _) _); [is_reached|].
    intros H. vm_compute in H.
    repeat (destruct H as [H|H]; [discriminate H|]). exact H.
Defined.

(** ** The table of bookings *)

Lemma accepts_no_conflict (w : Booking.World) (self : Booking.t) :
  accepts w self -> forall e, In e (Booking.objects w) -> ~ conflicts self e.
Proof.
  intros Hok. apply accepts_iff in Hok. unfold Checks.in_order in Hok.
  rewrite !List.Forall_cons_iff in Hok.
  now apply requirement_NoOverlap.
Qed.

Lemma accepts_transfer (w w' : Booking.World) (self : Booking.t) :
  (forall c, Checks.requirement c w self = true ->
             Checks.requirement c w' self = true) ->
  accepts w self -> accepts w' self.
Proof.
  intros Himp Hok. apply accepts_iff. apply accepts_iff in Hok.
  revert Hok. apply List.Forall_impl. exact Himp.
Qed.

Lemma In_exclude_id (self e : Booking.t) (rows : list Booking.t) :
  In e (Booking.exclude_id self rows) <->
  In e rows /\ Booking.id e <> Booking.id self.
Proof.
  unfold Booking.exclude_id.
  now rewrite List.filter_In, negb_true_iff, bool_decide_eq_false.
Qed.

(** X6: validating again a booking that is stored in a table without
    double bookings does not trip over its own row: once the time-range
    and 20-second checks pass, the overlap check lets it through. *)
Theorem stored_booking_passes_overlap_check (w : Booking.World)
        (self : Booking.t) :
  In self (Booking.objects w) ->
  no_double_booking (Booking.objects w) ->
  datetime_lt (Booking.start_time self) (Booking.end_time self) = true ->
  window_start w <= timestamp (Booking.start_time self) ->
  reached StaffAssigned w self.
Proof.
  intros Hin Hfree Hrange Hfresh.
  apply reached_iff, met_before_StaffAssigned. split.
  - apply met_before_NoOverlap.
    split; [now apply requirement_TimeRange | now apply requirement_NotInPast].
  - apply requirement_NoOverlap.
    intros e He (Hsvc & Hid & Hlt & Hgt).
    apply (Hfree e self He Hin Hid Hsvc). unfold intervals_overlap. lia.
Qed.

(** Two stored bookings back to back, 10:00-10:30 and 10:30-11:00; the
    first is validated again. *)
Lemma stored_booking_passes_overlap_check_witness :
  reached StaffAssigned
    (Sample.world
       [Sample.booking (Some 1) (Sample.monday 10 0) (Sample.monday 10 30)
          "paid";
        Sample.booking (Some 2) (Sample.monday 10 30) (Sample.monday 11 0)
          "paid"])
    (Sample.booking (Some 1) (Sample.monday 10 0) (Sample.monday 10 30)
       "paid").
Proof.
  refine (stored_booking_passes_overlap_check _ _ _ _ _ _).
  - now left.
  - intros a b [<-|[<-|[]]] [<-|[<-|[]]] Hid _ [H1 H2];
      try (now apply Hid);
      first [vm_compute in H1; discriminate H1
            | vm_compute in H2; discriminate H2].
  - by_evaluation.
  - by_evaluation.
Defined.

(** X7: accepting keeps the table free of double bookings.  When the
    stored rows contain no double booking and [clean] accepts [self],
    the table that results from saving [self] contains none either: for
    a new booking the stored rows plus [self] under its new key, and in
    general [self] together with the rows of other ids. *)
Theorem accepted_booking_keeps_no_double_booking (w : Booking.World)
        (self : Booking.t) :
  no_double_booking (Booking.objects w) ->
  accepts w self ->
  (Booking.id self = None ->
   (forall e, In e (Booking.objects w) -> Booking.id e <> None) ->
   forall pk, no_double_booking (with_id (Some pk) self :: Booking.objects w))
  /\ no_double_booking (self :: Booking.exclude_id self (Booking.objects w)).
Proof.
  intros Hfree Hok. pose proof (accepts_no_conflict w self Hok) as Hclear.
  split.
  - intros Hnew Hsaved pk a b [<-|Ha] [<-|Hb] Hid Hsvc [H1 H2].
    + now apply Hid.
    + apply (Hclear b Hb). cbn in *. repeat split; try lia.
      rewrite Hnew. now apply Hsaved.
    + apply (Hclear a Ha). cbn in *. repeat split; try lia.
      rewrite Hnew. now apply Hsaved.
    + apply (Hfree a b Ha Hb Hid Hsvc). now split.
  - intros a b [<-|Ha] [<-|Hb] Hid Hsvc [H1 H2].
    + now apply Hid.
    + apply In_exclude_id in Hb as [Hb Hne].
      apply (Hclear b Hb). repeat split; try lia. exact Hne.
    + apply In_exclude_id in Ha as [Ha Hne].
      apply (Hclear a Ha). repeat split; try lia. exact Hne.
    + apply In_exclude_id in Ha as [Ha _], Hb as [Hb _].
      apply (Hfree a b Ha Hb Hid Hsvc). now split.
Qed.

(** A stored booking 10:30-11:00 and an accepted new one 10:00-10:30,
    saved under key 2. *)
Lemma accepted_booking_keeps_no_double_booking_witness :
  no_double_booking
    [with_id (Some 2)
       (Sample.booking None (Sample.monday 10 0) (Sample.monday 10 30)
          "pending");
     Sample.booking (Some 1) (Sample.monday 10 30) (Sample.monday 11 0)
       "paid"].
Proof.
  refine (proj1 (accepted_booking_keeps_no_double_booking
                   (Sample.world
                      [Sample.booking (Some 1) (Sample.monday 10 30)
                         (Sample.monday 11 0) "paid"])
                   (Sample.booking None (Sample.monday 10 0)
                      (Sample.monday 10 30) "pending") _ _) _ _ 2).
  - intros a b [<-|[]] [<-|[]] Hid _ _. now apply Hid.
  - by_evaluation.
  - reflexivity.
  - intros e [<-|[]]. discriminate.
Defined.

(** X8: a booking that [clean] accepts satisfies the check constraint
    [valid_payment_status_booking] of the table; it satisfies
    [start_time_before_end_time], which the database decides on the
    instants, whenever its [start_time] and [end_time] carry different
    [tzinfo] objects or the same UTC offset. *)
Theorem accepted_booking_meets_constraints (w : Booking.World)
        (self : Booking.t) :
  accepts w self ->
  Constraints.valid_payment_status_booking
    (Booking.Order_Status_Choices w) self = true
  /\ (tzinfo (Booking.start_time self) <> tzinfo (Booking.end_time self)
      \/ utcoffset (Booking.start_time self)
         = utcoffset (Booking.end_time self) ->
      Constraints.start_time_before_end_time self = true).
Proof.
  intros Hok. apply accepts_iff in Hok. unfold Checks.in_order in Hok.
  rewrite !List.Forall_cons_iff in Hok.
  destruct Hok as (H1 & _ & _ & _ & _ & _ & _ & _ & H9 & _).
  split.
  - cbn in H9. apply negb_true_iff, not_in_choices_false in H9.
    unfold Constraints.valid_payment_status_booking.
    apply existsb_exists. exists (Booking.payment_status self).
    split; [exact H9 | apply String.eqb_refl].
  - intros Hzone. unfold Constraints.start_time_before_end_time.
    rewrite <- (datetime_lt_instants _ _ Hzone). exact H1.
Qed.

Lemma accepted_booking_meets_constraints_witness :
  Constraints.valid_payment_status_booking Sample.enum
    (Sample.booking None (Sample.monday 10 0) (Sample.monday 10 30) "paid")
  = true
  /\ Constraints.start_time_before_end_time
       (Sample.booking None (Sample.monday 10 0) (Sample.monday 10 30) "paid")
     = true.
Proof.
  destruct (accepted_booking_meets_constraints (Sample.world [])
              (Sample.booking None (Sample.monday 10 0) (Sample.monday 10 30)
                 "paid")) as [Hstatus Hrange].
  - by_evaluation.
  - split; [exact Hstatus | apply Hrange; right; reflexivity].
Defined.

(** X9: removing stored bookings never turns an accepted booking into a
    rejected one: a booking accepted against a table is accepted against
    every table whose rows are among that table's rows. *)
Theorem fewer_rows_still_accepted (w : Booking.World) (self : Booking.t)
        (rows : list Booking.t) :
  (forall e, In e rows -> In e (Booking.objects w)) ->
  accepts w self ->
  accepts (with_objects rows w) self.
Proof.
  intros Hsub. apply accepts_transfer.
  intros c; destruct c; try (intros H; exact H).
  rewrite !requirement_NoOverlap. intros Hclear e He.
  apply Hclear, Hsub, He.
Qed.

Lemma fewer_rows_still_accepted_witness :
  accepts
    (with_objects []
       (Sample.world
          [Sample.booking (Some 1) (Sample.monday 10 30) (Sample.monday 11 0)
             "paid"]))
    (Sample.booking None (Sample.monday 10 0) (Sample.monday 10 30) "pending").
Proof.
  refine (fewer_rows_still_accepted _ _ [] _ _).
  - intros e [].
  - by_evaluation.
Defined.

(** ** The clock *)

(** X10: only the 20-second check reads the clock, and it gets stricter
    as time passes: a booking accepted at some clock reading is accepted
    at every earlier one. *)
Theorem earlier_clock_still_accepts (w : Booking.World) (self : Booking.t)
        (t : datetime) :
  timestamp t <= timestamp (Booking.now w) ->
  accepts w self ->
  accepts (with_now t w) self.
Proof.
  intros Hearlier. apply accepts_transfer.
  intros c; destruct c; try (intros H; exact H).
  rewrite !requirement_NotInPast. unfold window_start. cbn. lia.
Qed.

Lemma earlier_clock_still_accepts_witness :
  accepts (with_now (at_utc 738880 12 0 0) (Sample.world []))
    (Sample.booking None (Sample.monday 10 0) (Sample.monday 10 30) "pending").
Proof.
  refine (earlier_clock_still_accepts _ _ _ _ _); by_evaluation.
Defined.

(** ** Time zones *)

Lemma overlapping_same_instants (w : Booking.World) (self self' : Booking.t) :
  Booking.id self' = Booking.id self ->
  Service.pk (Booking.service_id self')
  = Service.pk (Booking.service_id self) ->
  timestamp (Booking.start_time self') = timestamp (Booking.start_time self) ->
  timestamp (Booking.end_time self') = timestamp (Booking.end_time self) ->
  Checks.overlapping w self' = Checks.overlapping w self.
Proof.
  intros Hid Hsvc Hstart Hend.
  unfold Checks.overlapping, Booking.exclude_id. rewrite Hid. f_equal.
  apply List.filter_ext. intros b.
  unfold Booking.overlap_filter, dt_ltb, dt_gtb.
  now rewrite Hsvc, Hstart, Hend.
Qed.

(** X11: the 20-second and overlap checks see [start_time] and
    [end_time] only through the instants they denote: two bookings of the
    same service and id whose times denote the same instants and which
    both pass the time-range check fare alike in them, in whatever time
    zones they are written.  The working-hours check and, for two
    datetimes of one zone, the time-range check read the wall clock
    instead: Monday 10:00-10:30 UTC is accepted in the sample world and
    the same interval written five hours behind UTC is rejected for its
    hours; 05:30-06:10 UTC on 2024-11-03 passes the time-range check and
    the same interval written in America/New_York, 01:30 to 01:10 of the
    repeated hour, fails it. *)
Theorem window_and_overlap_checks_read_instants (w : Booking.World)
        (self : Booking.t) :
  (forall self',
      Booking.id self' = Booking.id self ->
      Service.pk (Booking.service_id self')
      = Service.pk (Booking.service_id self) ->
      timestamp (Booking.start_time self')
      = timestamp (Booking.start_time self) ->
      timestamp (Booking.end_time self') = timestamp (Booking.end_time self) ->
      reached NotInPast w self ->
      reached NotInPast w self' ->
      (reached StaffAssigned w self' <-> reached StaffAssigned w self)
      /\ (~ reached StaffAssigned w self ->
          Booking.clean w self' = Booking.clean w self))
  /\ (let utc :=
        Sample.booking None (Sample.monday 10 0) (Sample.monday 10 30)
          "pending" in
      let local :=
        Sample.booking None (at_zone "America/Bogota" (-5) 738886 5 0)
          (at_zone "America/Bogota" (-5) 738886 5 30) "pending" in
      timestamp (Booking.start_time local) = timestamp (Booking.start_time utc)
      /\ timestamp (Booking.end_time local) = timestamp (Booking.end_time utc)
      /\ accepts (Sample.world []) utc
      /\ raises (Sample.world []) local
           (ValidationError_dict "start_time"
              "Booking times must be within the working hours of the assigned staff."))
  /\ (let utc :=
        Sample.booking None (at_utc 739193 5 30 0) (at_utc 739193 6 10 0)
          "pending" in
      let local :=
        Sample.booking None (at_zone "America/New_York" (-4) 739193 1 30)
          (at_zone "America/New_York" (-5) 739193 1 10) "pending" in
      timestamp (Booking.start_time local) = timestamp (Booking.start_time utc)
      /\ timestamp (Booking.end_time local) = timestamp (Booking.end_time utc)
      /\ reached NotInPast (Sample.world []) utc
      /\ raises (Sample.world []) local
           (ValidationError_dict "start_time"
              "Start time must be before end time.")).
Proof.
  split; [|split; cbv zeta; repeat split; first [by_evaluation | is_reached]].
  intros self' Hid Hsvc Hstart Hend Hpass Hpass'.
  apply reached_iff, met_before_NotInPast in Hpass, Hpass'.
  assert (H2 : Checks.requirement NotInPast w self'
               = Checks.requirement NotInPast w self).
  { cbn. unfold dt_geb. now rewrite Hstart. }
  assert (H3 : Checks.requirement NoOverlap w self'
               = Checks.requirement NoOverlap w self).
  { cbn [Checks.requirement].
    now rewrite (overlapping_same_instants w self self'). }
  split.
  - rewrite !reached_iff, !met_before_StaffAssigned, !met_before_NoOverlap,
      H2, H3. tauto.
  - intros Hnot.
    rewrite reached_iff, met_before_StaffAssigned, met_before_NoOverlap
      in Hnot.
    destruct (Checks.requirement NotInPast w self) eqn:R2.
    + destruct (Checks.requirement NoOverlap w self) eqn:R3; [tauto|].
      rewrite (clean_stops NoOverlap w self), (clean_stops NoOverlap w self');
        try reflexivity; try assumption;
        apply met_before_NoOverlap; split; congruence.
    + rewrite (clean_stops NotInPast w self),
        (clean_stops NotInPast w self');
        try reflexivity; try assumption;
        apply met_before_NotInPast; congruence.
Qed.

(** The sample booking 10:00-10:30 UTC and the same interval written as
    12:00-12:30 two hours ahead of UTC reach the staff check alike. *)
Lemma window_and_overlap_checks_read_instants_witness :
  reached StaffAssigned (Sample.world [])
    (Sample.booking None (at_zone "Africa/Cairo" 2 738886 12 0)
       (at_zone "Africa/Cairo" 2 738886 12 30) "pending")
  <-> reached StaffAssigned (Sample.world [])
        (Sample.booking None (Sample.monday 10 0) (Sample.monday 10 30)
           "pending").
Proof.
  refine (proj1 (proj1 (window_and_overlap_checks_read_instants
                          (Sample.world [])
                          (Sample.booking None (Sample.monday 10 0)
                             (Sample.monday 10 30) "pending"))
                   (Sample.booking None
                      (at_zone "Africa/Cairo" 2 738886 12 0)
                      (at_zone "Africa/Cairo" 2 738886 12 30) "pending")
                   _ _ _ _ _ _));
    first [by_evaluation | is_reached].
Defined.

(** ** The working-hours table *)

Lemma staff_times_of_first (w : Booking.World) (staff : Z)
      (front back : list Staff_Times.t) (record : Staff_Times.t) :
  Booking.Staff_Times_objects w = (front ++ record :: back)%list ->
  (forall r, In r front -> Staff_Times.user r <> staff) ->
  Staff_Times.user record = staff ->
  Booking.staff_times_of w staff = Some record.
Proof.
  unfold Booking.staff_times_of. intros -> Hfront Hrecord.
  induction front as [|r front IH]; cbn.
  - apply Z.eqb_eq in Hrecord. now rewrite Hrecord.
  - assert (Hr : (Staff_Times.user r =? staff) = false).
    { apply Z.eqb_neq, Hfront. now left. }
    rewrite Hr. apply IH. intros r' Hin. apply Hfront. now right.
Qed.

(** X12: of the working-hours table [clean] reads one row, the first
    that belongs to the staff member assigned to the service: rows of
    other staff members before it and all rows after it, further rows of
    the same staff member included, do not change what [clean] does. *)
Theorem only_first_record_is_read (w : Booking.World) (self : Booking.t)
        (staff : Z) (front back : list Staff_Times.t)
        (record : Staff_Times.t) :
  Service.assigned_staffs (Booking.service_id self) = Some staff ->
  Booking.Staff_Times_objects w = (front ++ record :: back)%list ->
  (forall r, In r front -> Staff_Times.user r <> staff) ->
  Staff_Times.user record = staff ->
  Booking.clean w self
  = Booking.clean (with_Staff_Times_objects [record] w) self.
Proof.
  intros Hstaff Htable Hfront Hrecord.
  pose proof (staff_times_of_first w staff front back record Htable Hfront
                Hrecord) as Hw.
  assert (Hw' : Booking.staff_times_of
                  (with_Staff_Times_objects [record] w) staff = Some record).
  { apply (staff_times_of_first _ staff [] [] record);
      [reflexivity | intros r [] | exact Hrecord]. }
  assert (Hsame : Checks.hours_record (with_Staff_Times_objects [record] w)
                    self
                  = Checks.hours_record w self).
  { unfold Checks.hours_record, Checks.assigned_staff. rewrite Hstaff.
    cbn [mbind option_bind]. now rewrite Hw, Hw'. }
  rewrite !clean_run. unfold Checks.run. symmetry.
  apply first_failure_ext; intros c; destruct c; try reflexivity;
    cbn [Checks.requirement Checks.error_of];
    unfold Checks.day_hours, Checks.day_entry; now rewrite Hsame.
Qed.

(** The sample record between a record of staff member 8 and a second
    record of staff member 7 that has no hours at all. *)
Lemma only_first_record_is_read_witness :
  Booking.clean
    (Sample.world_of
       [{| Staff_Times.user := 8; Staff_Times.working_hours := ∅ |};
        Sample.hours_of_7;
        {| Staff_Times.user := 7; Staff_Times.working_hours := ∅ |}] [])
    (Sample.booking None (Sample.monday 10 0) (Sample.monday 10 30) "pending")
  = Booking.clean
      (with_Staff_Times_objects [Sample.hours_of_7]
         (Sample.world_of
            [{| Staff_Times.user := 8; Staff_Times.working_hours := ∅ |};
             Sample.hours_of_7;
             {| Staff_Times.user := 7; Staff_Times.working_hours := ∅ |}] []))
      (Sample.booking None (Sample.monday 10 0) (Sample.monday 10 30)
         "pending").
Proof.
  refine (only_first_record_is_read _ _ 7
            [{| Staff_Times.user := 8; Staff_Times.working_hours := ∅ |}]
            [{| Staff_Times.user := 7; Staff_Times.working_hours := ∅ |}]
            Sample.hours_of_7 _ _ _ _).
  - reflexivity.
  - reflexivity.
  - intros r [<-|[]]. by_evaluation.
  - reflexivity.
Defined.

(** ** What the format of the hours allows *)

Lemma parsed_micros_bound (data_string : string) (t : time) :
  strptime_time data_string = Ok t ->
  0 <= micros_of_time t <= latest_parsable.
Proof.
  intros H. apply strptime_time_in_range in H as (Hrange & Hs & Hu).
  unfold time_in_range in Hrange. unfold micros_of_time, latest_parsable.
  rewrite Hs, Hu. lia.
Qed.

(** X13: the hours are written without seconds, so the latest end of a
    working day is 11:59PM: an accepted booking has both its times of day
    at or before 23:59:00, and a booking that starts or ends in the last
    minute of a day is never accepted. *)
Theorem accepted_times_of_day_bounded (w : Booking.World) (self : Booking.t) :
  accepts w self ->
  micros_of_time (time_of (Booking.start_time self)) <= latest_parsable
  /\ micros_of_time (time_of (Booking.end_time self)) <= latest_parsable.
Proof.
  intros Hok. apply accepts_iff in Hok. unfold Checks.in_order in Hok.
  rewrite !List.Forall_cons_iff in Hok.
  destruct Hok as (_ & _ & _ & _ & _ & _ & _ & H8 & _).
  apply requirement_WithinHours in H8
    as (day_start & day_end & Hhours & Hs & He).
  destruct Hhours as (staff & record & entry & _ & _ & _ & Hps & Hpe).
  apply (within_micros _ _ _ _ _ Hps Hpe) in Hs, He.
  pose proof (parsed_micros_bound _ _ Hpe). lia.
Qed.

Lemma accepted_times_of_day_bounded_witness :
  micros_of_time (time_of (Sample.monday 10 0)) <= latest_parsable
  /\ micros_of_time (time_of (Sample.monday 10 30)) <= latest_parsable.
Proof.
  refine (accepted_times_of_day_bounded (Sample.world [])
            (Sample.booking None (Sample.monday 10 0) (Sample.monday 10 30)
               "pending") _).
  by_evaluation.
Defined.

(** X14: working hours that end before they start, as those of a night
    shift from 10:00PM to 06:00AM, admit no booking: every booking that
    reaches the working-hours check on such a day is rejected. *)
Theorem hours_ending_before_start_reject_all (w : Booking.World)
        (self : Booking.t) (day_start day_end : time) :
  reached WithinHours w self ->
  day_hours_are w self day_start day_end ->
  micros_of_time day_end < micros_of_time day_start ->
  raises w self
    (ValidationError_dict "start_time"
       "Booking times must be within the working hours of the assigned staff.").
Proof.
  intros Hreached Hhours Hinverted. apply reached_iff in Hreached.
  apply (raises_error_of WithinHours w self). split; [exact Hreached|].
  pose proof Hhours as (staff & record & entry & _ & _ & _ & Hps & Hpe).
  apply day_hours_iff in Hhours. cbn. rewrite Hhours.
  destruct (Checks.within day_start day_end
              (time_of (Booking.start_time self))) eqn:Hs; [|reflexivity].
  apply (within_micros _ _ _ _ _ Hps Hpe) in Hs. lia.
Qed.

(** A night shift on Monday and a booking 11:00PM-11:30PM. *)
Lemma hours_ending_before_start_reject_all_witness :
  raises
    (Sample.world_of
       [{| Staff_Times.user := 7;
           Staff_Times.working_hours :=
             <["monday" := Sample.day_entry "10:00PM" "06:00AM"]> ∅ |}] [])
    (Sample.booking None (Sample.monday 23 0) (Sample.monday 23 30) "pending")
    (ValidationError_dict "start_time"
       "Booking times must be within the working hours of the assigned staff.").
Proof.
  refine (hours_ending_before_start_reject_all _ _ (mk_time 22 0 0 0)
            (mk_time 6 0 0 0) _ _ _).
  - is_reached.
  - eexists 7, _, (Sample.day_entry "10:00PM" "06:00AM").
    repeat split; by_evaluation.
  - by_evaluation.
Defined.

(** * The staff bootstrap command *)

Section CommandFacts.
Context (auth : Auth).

(** Rejected rounds at the head of the input are read, answered with one
    line each, and the loop goes on with what follows. *)
Lemma loop_rejected_rounds (users : list (User auth))
      (bad : list (string * string * string)) (tail : list string) :
  Forall (fun round => Command.rejection auth users round <> None) bad ->
  Command.loop auth users (Command.lines_of bad ++ tail) =
  let '(found, unread, written) := Command.loop auth users tail in
  (found, unread,
   (flat_map (Command.round_output auth users) bad ++ written)%list).
Proof.
  induction 1 as [|[[email name] password] bad Hround _ IH].
  - cbn. now destruct (Command.loop auth users tail) as [[? ?] ?].
  - change (Command.lines_of ((email, name, password) :: bad) ++ tail)%list
      with (email :: name :: password
              :: (Command.lines_of bad ++ tail))%list.
    cbn [Command.loop flat_map]. unfold Command.round_output at 1.
    unfold Command.rejection in *.
    destruct (Command.username_exists auth users name).
    + rewrite IH. destruct (Command.loop auth users tail) as [[? ?] ?].
      now rewrite <- !app_assoc.
    + destruct (validate_password auth password) as [e|]; [|congruence].
      rewrite IH. destruct (Command.loop auth users tail) as [[? ?] ?].
      now rewrite <- !app_assoc.
Qed.

Lemma loop_accepts (users : list (User auth)) (email name password : string)
      (rest : list string) :
  Command.rejection auth users (email, name, password) = None ->
  Command.loop auth users (email :: name :: password :: rest)
  = (Some (email, name, password), rest, Command.prompts).
Proof.
  unfold Command.rejection. cbn [Command.loop].
  destruct (Command.username_exists auth users name); [discriminate|].
  now destruct (validate_password auth password).
Qed.

Lemma loop_end_of_input (users : list (User auth)) (tail : list string) :
  (length tail < 3)%nat ->
  Command.loop auth users tail
  = (None, [], firstn (S (length tail)) Command.prompts).
Proof.
  destruct tail as [|a [|b [|c tail]]]; cbn; intros H;
    try reflexivity; lia.
Qed.

(** What the loop has done when it leaves with a triple. *)
Lemma loop_found (n : nat) (users : list (User auth)) (lines : list string)
      (email name password : string) (unread : list string)
      (written : list Command.output) :
  (length lines <= n)%nat ->
  Command.loop auth users lines = (Some (email, name, password), unread, written) ->
  exists bad,
    Forall (fun round => Command.rejection auth users round <> None) bad
    /\ Command.rejection auth users (email, name, password) = None
    /\ lines = (Command.lines_of bad ++ email :: name :: password :: unread)%list
    /\ written = (flat_map (Command.round_output auth users) bad
                  ++ Command.prompts)%list.
Proof.
  revert lines written. induction n as [|n IH]; intros lines written Hlen.
  - destruct lines; [discriminate | cbn in Hlen; lia].
  - destruct lines as [|e [|u [|p rest]]]; try discriminate.
    cbn [Command.loop].
    assert (Hrest : (length rest <= n)%nat) by (cbn in Hlen; lia).
    destruct (Command.username_exists auth users u) eqn:Htaken.
    + destruct (Command.loop auth users rest) as [[found unread'] written']
        eqn:Hloop.
      intros [= -> -> <-].
      destruct (IH rest written' Hrest Hloop)
        as (bad & Hbad & Hgood & Hlines & Hwritten).
      exists ((e, u, p) :: bad). repeat split.
      * constructor; [|exact Hbad].
        unfold Command.rejection. now rewrite Htaken.
      * exact Hgood.
      * cbn. now rewrite Hlines.
      * cbn [flat_map]. unfold Command.round_output at 1.
        unfold Command.rejection at 1. rewrite Htaken, Hwritten.
        now rewrite <- !app_assoc.
    + destruct (validate_password auth p) as [text|] eqn:Hvalid.
      * destruct (Command.loop auth users rest) as [[found unread'] written']
          eqn:Hloop.
        intros [= -> -> <-].
        destruct (IH rest written' Hrest Hloop)
          as (bad & Hbad & Hgood & Hlines & Hwritten).
        exists ((e, u, p) :: bad). repeat split.
        -- constructor; [|exact Hbad].
           unfold Command.rejection. now rewrite Htaken, Hvalid.
        -- exact Hgood.
        -- cbn. now rewrite Hlines.
        -- cbn [flat_map]. unfold Command.round_output at 1.
           unfold Command.rejection at 1. rewrite Htaken, Hvalid, Hwritten.
           now rewrite <- !app_assoc.
      * intros [= <- <- <- <- <-]. exists []. repeat split.
        -- constructor.
        -- unfold Command.rejection. now rewrite Htaken, Hvalid.
Qed.

Lemma staff_exists_app (users extra : list (User auth)) :
  Command.staff_exists auth (users ++ extra)
  = Command.staff_exists auth users || Command.staff_exists auth extra.
Proof. unfold Command.staff_exists. apply existsb_app. Qed.

Lemma returned_means_created_aux
      (users users' : list (User auth)) (lines unread : list string)
      (written : list Command.output) :
  Command.staff_exists auth users = false ->
  Command.handle auth users lines
  = (users', unread, written, Command.Returned) ->
  exists email name password admin_user,
    create_user auth email password true name = Some admin_user
    /\ users' = (users ++ [set_is_active auth true admin_user])%list.
Proof.
  intros Hnone. unfold Command.handle, Command.create_initial_staff.
  rewrite Hnone.
  destruct (Command.loop auth users lines) as [[[[[email name] password]|]
                                                 unread0] written0];
    [|discriminate].
  destruct (create_user auth email password true name) as [admin_user|]
    eqn:Hcreate; [|discriminate].
  intros [= <- <- <-]. now exists email, name, password, admin_user.
Qed.

(** X15: when no staff user exists, [handle] skips the rounds whose
    username is taken or whose password is invalid, answering each with
    one error line, and creates the staff user from the first round with
    a free username and a valid password: [create_user] gets the email,
    username and password of that very round, the new row is saved
    active, the lines after the round stay unread, and the success line
    is written last. *)
Theorem first_acceptable_round_creates_staff
        (users : list (User auth)) (bad : list (string * string * string))
        (email name password : string) (rest : list string)
        (admin_user : User auth) :
  Command.staff_exists auth users = false ->
  Forall (fun round => Command.rejection auth users round <> None) bad ->
  Command.username_exists auth users name = false ->
  validate_password auth password = None ->
  create_user auth email password true name = Some admin_user ->
  Command.handle auth users
    (Command.lines_of bad ++ email :: name :: password :: rest)
  = ((users ++ [set_is_active auth true admin_user])%list,
     rest,
     (flat_map (Command.round_output auth users) bad
      ++ Command.prompts
      ++ [Command.Styled Command.SUCCESS "Successfully created staff User"])%list,
     Command.Returned).
Proof.
  intros Hnone Hbad Hfree Hvalid Hcreate.
  unfold Command.handle, Command.create_initial_staff. rewrite Hnone.
  rewrite (loop_rejected_rounds users bad _ Hbad).
  rewrite loop_accepts
    by (unfold Command.rejection; now rewrite Hfree, Hvalid).
  rewrite Hcreate. now rewrite <- app_assoc.
Qed.

(** X16: when the input ends before a round is accepted, [handle] ends
    with [EOFError]: the table of users is unchanged, no success line is
    written, and the last thing written is the prompt of the [input]
    call that met the end of input. *)
Theorem end_of_input_creates_nothing
        (users : list (User auth)) (bad : list (string * string * string))
        (tail : list string) :
  Command.staff_exists auth users = false ->
  Forall (fun round => Command.rejection auth users round <> None) bad ->
  (length tail < 3)%nat ->
  Command.handle auth users (Command.lines_of bad ++ tail)
  = (users, [],
     (flat_map (Command.round_output auth users) bad
      ++ firstn (S (length tail)) Command.prompts)%list,
     Command.Raised Command.EOFError).
Proof.
  intros Hnone Hbad Htail.
  unfold Command.handle, Command.create_initial_staff. rewrite Hnone.
  rewrite (loop_rejected_rounds users bad _ Hbad).
  now rewrite loop_end_of_input.
Qed.

(** X17: when [handle] returns after finding no staff user, it has
    created exactly one: the input began with rejected rounds followed by
    a round whose username was free and whose password was valid, and the
    table is the old one followed by the row [create_user] made from
    that round, saved active. *)
Theorem returned_means_created
        (users users' : list (User auth)) (lines unread : list string)
        (written : list Command.output) :
  Command.staff_exists auth users = false ->
  Command.handle auth users lines
  = (users', unread, written, Command.Returned) ->
  exists bad email name password admin_user,
    lines = (Command.lines_of bad ++ email :: name :: password :: unread)%list
    /\ Forall (fun round => Command.rejection auth users round <> None) bad
    /\ Command.username_exists auth users name = false
    /\ validate_password auth password = None
    /\ create_user auth email password true name = Some admin_user
    /\ users' = (users ++ [set_is_active auth true admin_user])%list.
Proof.
  intros Hnone. unfold Command.handle, Command.create_initial_staff.
  rewrite Hnone.
  destruct (Command.loop auth users lines) as [[[[[email name] password]|]
                                                 unread0] written0] eqn:Hloop;
    [|discriminate].
  destruct (create_user auth email password true name) as [admin_user|]
    eqn:Hcreate; [|discriminate].
  intros [= <- <- <-].
  destruct (loop_found (length lines) users lines email name password unread0
              written0 (le_n _) Hloop)
    as (bad & Hbad & Hgood & Hlines & _).
  exists bad, email, name, password, admin_user.
  unfold Command.rejection in Hgood.
  destruct (Command.username_exists auth users name); [discriminate|].
  destruct (validate_password auth password); [discriminate|].
  now repeat split.
Qed.

(** X18: [handle] never changes or removes a user and adds at most one:
    however it ends, the table afterwards is the old table, or the old
    table followed by one row. *)
Theorem handle_adds_at_most_one
        (users : list (User auth)) (lines : list string) :
  let '(users', _, _, _) := Command.handle auth users lines in
  users' = users \/ exists u, users' = (users ++ [u])%list.
Proof.
  unfold Command.handle, Command.create_initial_staff.
  destruct (Command.staff_exists auth users); [now left|].
  destruct (Command.loop auth users lines) as [[[[[email name] password]|]
                                                 unread] written];
    [|now left].
  destruct (create_user auth email password true name) as [admin_user|];
    [right; now eexists | now left].
Qed.

(** X19: a second run does nothing.  With a manager whose [create_user]
    honours [is_staff] and makes no superusers, and a model on which
    setting [is_active] leaves those two flags alone, the table [handle]
    returns with holds a staff user, so running [handle] on it again
    reads nothing, creates nothing and writes the one line that says
    so. *)
Theorem second_run_does_nothing
        (users users' : list (User auth)) (lines unread : list string)
        (written : list Command.output) :
  (forall email password name u,
      create_user auth email password true name = Some u ->
      is_staff auth u = true /\ is_superuser auth u = false) ->
  (forall v u,
      is_staff auth (set_is_active auth v u) = is_staff auth u
      /\ is_superuser auth (set_is_active auth v u) = is_superuser auth u) ->
  Command.handle auth users lines
  = (users', unread, written, Command.Returned) ->
  forall lines',
    Command.handle auth users' lines'
    = (users', lines',
       [Command.Styled Command.ERROR
          "staff User already exist. No action required."],
       Command.Returned).
Proof.
  intros Hmanager Hmodel Hrun lines'.
  assert (Hstaff : Command.staff_exists auth users' = true).
  { destruct (Command.staff_exists auth users) eqn:Hnone.
    - unfold Command.handle in Hrun. rewrite Hnone in Hrun.
      now injection Hrun as <- _ _.
    - destruct (returned_means_created_aux users users' lines unread written
                  Hnone Hrun) as (email & name & password & u & Hcreate & ->).
      rewrite staff_exists_app, Hnone. cbn.
      destruct (Hmanager _ _ _ _ Hcreate) as [Hs Hn].
      destruct (Hmodel true u) as [-> ->]. now rewrite Hs, Hn. }
  unfold Command.handle. now rewrite Hstaff.
Qed.

End CommandFacts.

(** ** The command on a sample table

    The table holds the superuser [root] only.  The first round names
    [root], the second gives a password of five characters, the third is
    acceptable; one more line follows. *)

Lemma first_acceptable_round_creates_staff_witness :
  Command.handle SampleAuth.auth [SampleAuth.root]
    (Command.lines_of
       [("a@example.org", "root", "long enough"); ("b@example.org", "alice", "short")]
     ++ "c@example.org" :: "alice" :: "long enough" :: ["unread"])
  = (([SampleAuth.root]
      ++ [set_is_active SampleAuth.auth true
            {| SampleAuth.row_username := "alice";
               SampleAuth.row_email := "c@example.org";
               SampleAuth.row_password := "long enough";
               SampleAuth.row_is_staff := true;
               SampleAuth.row_is_superuser := false;
               SampleAuth.row_is_active := false |}])%list,
     ["unread"],
     (flat_map (Command.round_output SampleAuth.auth [SampleAuth.root])
        [("a@example.org", "root", "long enough");
         ("b@example.org", "alice", "short")]
      ++ Command.prompts
      ++ [Command.Styled Command.SUCCESS "Successfully created staff User"])%list,
     Command.Returned).
Proof.
  apply (first_acceptable_round_creates_staff SampleAuth.auth).
  - reflexivity.
  - repeat constructor; by_evaluation.
  - reflexivity.
  - reflexivity.
  - reflexivity.
Defined.

Lemma end_of_input_creates_nothing_witness :
  Command.handle SampleAuth.auth [SampleAuth.root]
    (Command.lines_of [("a@example.org", "root", "long enough")]
     ++ ["b@example.org"])
  = ([SampleAuth.root], [],
     (flat_map (Command.round_output SampleAuth.auth [SampleAuth.root])
        [("a@example.org", "root", "long enough")]
      ++ firstn (S (length ["b@example.org"])) Command.prompts)%list,
     Command.Raised Command.EOFError).
Proof.
  apply (end_of_input_creates_nothing SampleAuth.auth).
  - reflexivity.
  - repeat constructor; by_evaluation.
  - cbn; lia.
Defined.

Lemma returned_means_created_witness :
  exists bad email name password admin_user,
    ["a@example.org"; "root"; "long enough";
     "c@example.org"; "alice"; "long enough"; "unread"]
    = (Command.lines_of bad ++ email :: name :: password :: ["unread"])%list
    /\ Forall
         (fun round =>
            Command.rejection SampleAuth.auth [SampleAuth.root] round <> None)
         bad
    /\ Command.username_exists SampleAuth.auth [SampleAuth.root] name = false
    /\ validate_password SampleAuth.auth password = None
    /\ create_user SampleAuth.auth email password true name = Some admin_user
    /\ [SampleAuth.root;
        {| SampleAuth.row_username := "alice";
           SampleAuth.row_email := "c@example.org";
           SampleAuth.row_password := "long enough";
           SampleAuth.row_is_staff := true;
           SampleAuth.row_is_superuser := false;
           SampleAuth.row_is_active := true |}]
       = ([SampleAuth.root]
          ++ [set_is_active SampleAuth.auth true admin_user])%list.
Proof.
  refine (returned_means_created SampleAuth.auth [SampleAuth.root] _
            ["a@example.org"; "root"; "long enough";
             "c@example.org"; "alice"; "long enough"; "unread"]
            ["unread"]
            (Command.round_output SampleAuth.auth [SampleAuth.root]
               ("a@example.org", "root", "long enough")
             ++ Command.prompts
             ++ [Command.Styled Command.SUCCESS
                   "Successfully created staff User"])%list
            _ _).
  - reflexivity.
  - vm_compute. reflexivity.
Defined.

Lemma second_run_does_nothing_witness :
  Command.handle SampleAuth.auth
    [SampleAuth.root;
     {| SampleAuth.row_username := "alice";
        SampleAuth.row_email := "c@example.org";
        SampleAuth.row_password := "long enough";
        SampleAuth.row_is_staff := true;
        SampleAuth.row_is_superuser := false;
        SampleAuth.row_is_active := true |}]
    ["d@example.org"; "bob"; "long enough"]
  = ([SampleAuth.root;
      {| SampleAuth.row_username := "alice";
         SampleAuth.row_email := "c@example.org";
         SampleAuth.row_password := "long enough";
         SampleAuth.row_is_staff := true;
         SampleAuth.row_is_superuser := false;
         SampleAuth.row_is_active := true |}],
     ["d@example.org"; "bob"; "long enough"],
     [Command.Styled Command.ERROR
        "staff User already exist. No action required."],
     Command.Returned).
Proof.
  refine (second_run_does_nothing SampleAuth.auth [SampleAuth.root] _
            ["c@example.org"; "alice"; "long enough"] []
            (Command.prompts
             ++ [Command.Styled Command.SUCCESS
                   "Successfully created staff User"])%list
            _ _ _ _).
  - intros email password name u. cbn.
    destruct (String.eqb name ""); [discriminate|].
    now intros [= <-].
  - intros v u. now split.
  - vm_compute. reflexivity.
Defined.
